(** * ListView: a virtualised list over a recycled pool of DOM nodes

    Shallow embedding of [src/ListView/index.ts].

    Conventions of the model.
    - JavaScript numbers that the class handles (pixel sizes, scroll
      offsets, indices) are integers, modelled in [Z].  [Math.floor(a / b)]
      is [a / b] (floor division), [Math.ceil(a / b)] is [- ((- a) / b)],
      and [a % b] is [Z.rem a b] (the sign follows the dividend).  These
      agree with JavaScript whenever [b <> 0]; the theorems that depend on
      the arithmetic assume [0 < itemHeight].
    - The DOM is a store from node identities to the properties the class
      reads or writes; [container.children] is a list of identities, and
      [this.runway] is an identity too, so that the sentinel reached through
      the field and through [children[0]] is one object.
    - A method is a state transformer that completes normally or throws;
      a throw keeps the mutations made before it, as in JavaScript.
    - The callbacks of the host ([createHandler], [renderHandler]) and the
      calls on the render surface are recorded in a trace, in program
      order, together with the entry of each private method. *)

From stdpp Require Import gmap list.
From Stdlib Require Import ZArith Lia.

Local Open Scope Z_scope.

(** ** JavaScript primitives used by the class *)

Module Js.

(** [Math.floor(a / b)] *)
Definition floor_div (a b : Z) : Z := a / b.

(** [Math.ceil(a / b)] *)
Definition ceil_div (a b : Z) : Z := - ((- a) / b).

(** [a % b] *)
Definition rem (a b : Z) : Z := Z.rem a b.

(** [arr[i]]: [undefined] (here [None]) outside [0 .. length-1]. *)
Definition index {A} (arr : list A) (i : Z) : option A :=
  if i <? 0 then None else arr !! Z.to_nat i.

(** Relative index of [Array.prototype.slice] and [splice]: a negative
    index counts from the end, and the result is clamped to [0 .. len]. *)
Definition relative (len i : Z) : Z :=
  if i <? 0 then Z.max (len + i) 0 else Z.min i len.

(** [arr.slice(from, to)] *)
Definition slice {A} (arr : list A) (from to : Z) : list A :=
  let len := Z.of_nat (length arr) in
  let k := relative len from in
  let final := relative len to in
  take (Z.to_nat (final - k)) (drop (Z.to_nat k) arr).

(** [arr.splice(start, deleteCount, ...items)]: the removed elements and
    the array after the edit. *)
Definition splice {A} (arr : list A) (start deleteCount : Z) (items : list A)
  : list A * list A :=
  let len := Z.of_nat (length arr) in
  let k := relative len start in
  let dc := Z.min (Z.max deleteCount 0) (len - k) in
  (take (Z.to_nat dc) (drop (Z.to_nat k) arr),
   take (Z.to_nat k) arr ++ items ++ drop (Z.to_nat (k + dc)) arr).

(** Truthiness of a value of the item type ([!!data]). *)
Class Truthy (T : Type) := truthy : T -> bool.

(** Integer numbers: only [0] is falsy. *)
#[export] Instance Truthy_number : Truthy Z := fun z => negb (z =? 0).

(** Booleans. *)
#[export] Instance Truthy_boolean : Truthy bool := fun b => b.

(** [T | null]: [null] is falsy. *)
#[export] Instance Truthy_nullable {T} `{Truthy T} : Truthy (option T) :=
  fun o => match o with Some v => truthy v | None => false end.

(** [!!data] where [data] may be [undefined]. *)
Definition to_boolean {T} `{Truthy T} (data : option T) : bool :=
  match data with Some v => truthy v | None => false end.

Inductive Error := TypeError.

End Js.

Import Js.

(** ** Constants *)

Definition DSURPLUS_COUNT : Z := 0.
Definition RUNWAY_COUNT : Z := 1.

(** ** The data model *)

(** Identity of a DOM node. *)
Abbreviation NodeId := nat (only parsing).

(** The properties of an [HTMLElement] that the class touches:
    [clientHeight], [clientWidth], [style.transform] as the pair of a
    [translate(x px, y px)], and [dataset.index] as the integer whose
    decimal string it holds. *)
Record Element := mkElement {
  clientHeight : Z;
  clientWidth : Z;
  style_transform : option (Z * Z);
  dataset_index : option Z;
}.

Definition blank_element : Element := mkElement 0 0 None None.

Definition with_transform (t : Z * Z) (e : Element) : Element :=
  mkElement (clientHeight e) (clientWidth e) (Some t) (dataset_index e).

Definition with_dataset_index (i : Z) (e : Element) : Element :=
  mkElement (clientHeight e) (clientWidth e) (style_transform e) (Some i).

(** [this.cachedValue] *)
Record CachedValue := mkCachedValue {
  runwayHeight : Z;
  runwayWidth : Z;
  scrollbarWidth : Z;
  virtualContainerHeight : Z;
}.

(** [this.container]: its measured height, its scroll offset and its
    live list of children. *)
Record Container := mkContainer {
  container_clientHeight : Z;
  scrollTop : Z;
  children : list NodeId;
}.

(** The options the windowing code reads. *)
Record Options := mkOptions {
  itemHeight : Z;
  fixedSize : bool;
}.

Section ListView.

Context {T : Type} `{Truthy T}.

(** What the class does to its surroundings, in program order. *)
Inductive Event :=
| Call_measureSize
| Call_stretchList
| Call_recycleList
| Call_renderList
| Call_createHandler (node : NodeId)
| Call_removeChild (node : NodeId)
| Call_append (nodes : list NodeId)
| Call_scrollTo (top : Z)
| Call_renderHandler (node : option NodeId) (data : T) (index : Z).

Record ListView := mkListView {
  sourceList : list T;
  options : Options;
  cachedValue : CachedValue;
  container : Container;
  runway : NodeId;
  dom : gmap nat Element;
  next_node : NodeId;
  trace : list Event;
}.

(** *** Field updates *)

Definition set_sourceList (l : list T) (s : ListView) : ListView :=
  mkListView l (options s) (cachedValue s) (container s) (runway s) (dom s)
    (next_node s) (trace s).

Definition set_cachedValue (c : CachedValue) (s : ListView) : ListView :=
  mkListView (sourceList s) (options s) c (container s) (runway s) (dom s)
    (next_node s) (trace s).

Definition set_container (c : Container) (s : ListView) : ListView :=
  mkListView (sourceList s) (options s) (cachedValue s) c (runway s) (dom s)
    (next_node s) (trace s).

Definition set_dom (d : gmap nat Element) (s : ListView) : ListView :=
  mkListView (sourceList s) (options s) (cachedValue s) (container s)
    (runway s) d (next_node s) (trace s).

Definition set_next_node (n : NodeId) (s : ListView) : ListView :=
  mkListView (sourceList s) (options s) (cachedValue s) (container s)
    (runway s) (dom s) n (trace s).

Definition set_trace (t : list Event) (s : ListView) : ListView :=
  mkListView (sourceList s) (options s) (cachedValue s) (container s)
    (runway s) (dom s) (next_node s) t.

Definition set_children (l : list NodeId) (s : ListView) : ListView :=
  set_container
    (mkContainer (container_clientHeight (container s))
       (scrollTop (container s)) l) s.

Definition set_scrollTop (top : Z) (s : ListView) : ListView :=
  set_container
    (mkContainer (container_clientHeight (container s)) top
       (children (container s))) s.

Definition set_clientHeight (h : Z) (s : ListView) : ListView :=
  set_container
    (mkContainer h (scrollTop (container s)) (children (container s))) s.

(** ** Methods as state transformers that may throw *)

Inductive Completion (A : Type) :=
| Normal (a : A)
| Throw (e : Error).
Global Arguments Normal {A} a.
Global Arguments Throw {A} e.

Definition Op (A : Type) : Type := ListView -> Completion A * ListView.

Definition op_ret {A} (a : A) : Op A := fun s => (Normal a, s).

Definition op_bind {A B} (m : Op A) (k : A -> Op B) : Op B :=
  fun s =>
    match m s with
    | (Normal a, s') => k a s'
    | (Throw e, s') => (Throw e, s')
    end.

Definition throw {A} (e : Error) : Op A := fun s => (Throw e, s).

Definition gets {A} (f : ListView -> A) : Op A := fun s => (Normal (f s), s).

Definition modify (f : ListView -> ListView) : Op unit :=
  fun s => (Normal tt, f s).

Definition log (e : Event) : Op unit :=
  modify (fun s => set_trace (trace s ++ [e]) s).

Definition when (b : bool) (m : Op unit) : Op unit :=
  if b then m else op_ret tt.

End ListView.

Global Arguments Event : clear implicits.
Global Arguments ListView : clear implicits.
Global Arguments Op : clear implicits.

Declare Scope op_scope.
Delimit Scope op_scope with op.
Notation "x <- m ;; k" := (op_bind m (fun x => k))
  (at level 20, m at level 99, k at level 200, only parsing) : op_scope.
Notation "'exec' m ;; k" := (op_bind m (fun _ => k))
  (at level 20, m at level 99, k at level 200, only parsing) : op_scope.

Local Open Scope op_scope.

Section Methods.

Context {T : Type} `{Truthy T}.

(** [for (let index = 0; index < n; index++) body(index)] *)
Fixpoint for_each (indices : list Z) (body : Z -> Op T unit) : Op T unit :=
  match indices with
  | [] => op_ret tt
  | index :: rest => exec body index ;; for_each rest body
  end.

Definition for_upto (n : Z) (body : Z -> Op T unit) : Op T unit :=
  for_each (seqZ 0 n) body.

(** *** Getters *)

(** [get virtualItemCount]: reads the height of the container, caches it,
    and returns the number of slots that cover it. *)
Definition virtualItemCount : Op T Z :=
  clientHeight <- gets (fun s => container_clientHeight (container s)) ;;
  exec modify (fun s =>
         set_cachedValue
           (mkCachedValue (runwayHeight (cachedValue s))
              (runwayWidth (cachedValue s)) (scrollbarWidth (cachedValue s))
              clientHeight) s) ;;
  itemHeight <- gets (fun s => itemHeight (options s)) ;;
  op_ret (ceil_div clientHeight itemHeight + DSURPLUS_COUNT).

(** [get actualContainerHeight] *)
Definition actualContainerHeight (s : ListView T) : Z :=
  Z.of_nat (length (sourceList s)) * itemHeight (options s).

(** *** The render surface *)

(** [this.options.createHandler()]: the factory returns a new node. *)
Definition createHandler : Op T NodeId :=
  node <- gets next_node ;;
  exec modify (fun s =>
         set_next_node (S node) (set_dom (<[node := blank_element]> (dom s)) s)) ;;
  exec log (Call_createHandler node) ;;
  op_ret node.

(** [for (let index = 0; index < count; index++) nodes.push(createHandler())] *)
Fixpoint create_nodes (count : nat) : Op T (list NodeId) :=
  match count with
  | O => op_ret []
  | S count' =>
      node <- createHandler ;;
      nodes <- create_nodes count' ;;
      op_ret (node :: nodes)
  end.

(** [this.container.append(...nodes)] *)
Definition append (nodes : list NodeId) : Op T unit :=
  exec modify (fun s => set_children (children (container s) ++ nodes) s) ;;
  log (Call_append nodes).

(** [this.container.removeChild(children[index])] *)
Definition removeChild_at (index : nat) : Op T unit :=
  node <- gets (fun s => children (container s) !! index) ;;
  match node with
  | None => throw TypeError
  | Some node =>
      exec modify (fun s => set_children (delete index (children (container s))) s) ;;
      log (Call_removeChild node)
  end.

(** [for (let index = start; index > RUNWAY_COUNT; index--)
       this.container.removeChild(children[index])] *)
Fixpoint remove_children_down (index : nat) : Op T unit :=
  match index with
  | O => op_ret tt
  | S index' =>
      if RUNWAY_COUNT <? Z.of_nat index then
        exec removeChild_at index ;; remove_children_down index'
      else op_ret tt
  end.

(** [this.container.scrollTo({ top })] *)
Definition scrollTo (top : Z) : Op T unit :=
  exec modify (set_scrollTop top) ;;
  log (Call_scrollTo top).

(** [node.style.transform = `translate(${x}px, ${y}px)`] *)
Definition set_style_transform (node : NodeId) (x y : Z) : Op T unit :=
  modify (fun s => set_dom (alter (with_transform (x, y)) node (dom s)) s).

(** [node.dataset.index = i.toString()] *)
Definition set_dataset_index (node : NodeId) (i : Z) : Op T unit :=
  modify (fun s => set_dom (alter (with_dataset_index i) node (dom s)) s).

(** [this.options.renderHandler(node, data, index)] *)
Definition renderHandler (node : option NodeId) (data : T) (index : Z) : Op T unit :=
  log (Call_renderHandler node data index).

(** *** Private methods *)

Definition _measureSize : Op T unit :=
  exec log Call_measureSize ;;
  modify (fun s =>
    let r := default blank_element (dom s !! runway s) in
    set_cachedValue
      (mkCachedValue (clientHeight r) (clientWidth r)
         (scrollbarWidth (cachedValue s))
         (virtualContainerHeight (cachedValue s))) s).

Definition _stretchList : Op T unit :=
  exec log Call_stretchList ;;
  let x := 0 in
  y <- gets (fun s =>
         actualContainerHeight s
         - clientHeight (default blank_element (dom s !! runway s))) ;;
  r <- gets runway ;;
  set_style_transform r x y.

Definition _recycleList : Op T unit :=
  log Call_recycleList.

(** The body of the loop of [_renderList] at slot [index]. *)
Definition render_slot (scrolledTop itemHeight offset startIndex : Z)
    (virtualList : list T) (index : Z) : Op T unit :=
  node <- gets (fun s => Js.index (children (container s)) (index + RUNWAY_COUNT)) ;;
  match node with
  | None => throw TypeError
  | Some node =>
      let x := 0 in
      let y := scrolledTop + index * itemHeight - offset in
      exec set_style_transform node x y ;;
      let data := Js.index virtualList index in
      match data with
      | Some d =>
          if truthy d then
            let actualIndex := index + startIndex in
            exec set_dataset_index node actualIndex ;;
            renderHandler (Some node) d actualIndex
          else op_ret tt
      | None => op_ret tt
      end
  end.

Definition _renderList : Op T unit :=
  exec log Call_renderList ;;
  virtualItemCount <- virtualItemCount ;;
  itemHeight <- gets (fun s => itemHeight (options s)) ;;
  scrolledTop <- gets (fun s => scrollTop (container s)) ;;
  let offset := rem scrolledTop itemHeight in
  let startIndex := floor_div scrolledTop itemHeight in
  let endIndex := startIndex + virtualItemCount in
  virtualList <- gets (fun s => slice (sourceList s) startIndex endIndex) ;;
  for_upto virtualItemCount
    (render_slot scrolledTop itemHeight offset startIndex virtualList).

(** *** Public methods and event handlers *)

(** [insertData(dataList, index?)]; [None] is an omitted index. *)
Definition insertData (dataList : list T) (index : option Z) : Op T unit :=
  maxIndex <- gets (fun s => Z.of_nat (length (sourceList s))) ;;
  let position :=
    match index with
    | None => maxIndex
    | Some index =>
        if (index <? 0) || (maxIndex <? index) then maxIndex else index
    end in
  exec modify (fun s =>
         set_sourceList (snd (splice (sourceList s) position 0 dataList)) s) ;;
  exec _stretchList ;;
  _renderList.

(** [deleteData(index, count = 1)]; [None] is an omitted count. *)
Definition deleteData (index : Z) (count : option Z) : Op T (list T) :=
  let count := default 1 count in
  deleted <- gets (fun s => fst (splice (sourceList s) index count [])) ;;
  exec modify (fun s =>
         set_sourceList (snd (splice (sourceList s) index count [])) s) ;;
  exec _stretchList ;;
  exec _recycleList ;;
  exec _renderList ;;
  op_ret deleted.

Definition updateData (dataList : list T) : Op T unit :=
  exec modify (set_sourceList []) ;;
  exec modify (fun s => set_sourceList (sourceList s ++ dataList) s) ;;
  fixedSize <- gets (fun s => fixedSize (options s)) ;;
  exec when (negb fixedSize) _measureSize ;;
  len <- gets (fun s => Z.of_nat (length (children (container s)))) ;;
  exec remove_children_down (Z.to_nat (len - 1)) ;;
  virtualItemCount <- virtualItemCount ;;
  nodes <- create_nodes (Z.to_nat virtualItemCount) ;;
  exec append nodes ;;
  len <- gets (fun s => Z.of_nat (length (sourceList s))) ;;
  exec when (len <=? virtualItemCount) (scrollTo 0) ;;
  exec _stretchList ;;
  _renderList.

Definition renderItem (data : T) (index : Z) : Op T unit :=
  itemHeight <- gets (fun s => itemHeight (options s)) ;;
  scrolledTop <- gets (fun s => scrollTop (container s)) ;;
  let startIndex := floor_div scrolledTop itemHeight in
  let nodeIndex := index - startIndex in
  node <- gets (fun s => Js.index (children (container s)) (nodeIndex + RUNWAY_COUNT)) ;;
  renderHandler node data (nodeIndex + RUNWAY_COUNT).

(** [onScroll(event)]: the listener sits on the container and scroll
    events do not bubble, so [event.target] is the container. *)
Definition onScroll : Op T unit :=
  scrollTop <- gets (fun s => scrollTop (container s)) ;;
  virtualContainerHeight <- gets (fun s => virtualContainerHeight (cachedValue s)) ;;
  actualContainerHeight <- gets actualContainerHeight ;;
  if (scrollTop <? 0) || (actualContainerHeight <? scrollTop + virtualContainerHeight)
  then op_ret tt
  else _renderList.

Definition onResize : Op T unit :=
  cachedHeight <- gets (fun s => virtualContainerHeight (cachedValue s)) ;;
  actualHeight <- gets (fun s => container_clientHeight (container s)) ;;
  exec when (cachedHeight <? actualHeight)
         (len <- gets (fun s => Z.of_nat (length (children (container s)))) ;;
          itemHeight <- gets (fun s => itemHeight (options s)) ;;
          let count :=
            ceil_div actualHeight itemHeight + DSURPLUS_COUNT
            - (len - RUNWAY_COUNT) in
          nodes <- create_nodes (Z.to_nat count) ;;
          append nodes) ;;
  exec when (actualHeight <? cachedHeight) _recycleList ;;
  _renderList.

Definition doResize : Op T unit := onResize.

End Methods.

(** ** Construction and the signals of the environment *)

(** [new ListView(root, options)]: an empty buffer, a zeroed cache, and a
    container whose only child is the sentinel.  The height [viewport]
    of the container and the box of the sentinel come from the layout. *)
Definition construct {T} (opts : Options) (viewport : Z) (sentinel : Element)
  : ListView T :=
  mkListView [] opts (mkCachedValue 0 0 0 0) (mkContainer viewport 0 [0%nat])
    0%nat {[ 0%nat := sentinel ]} 1%nat [].

(** The state a method leaves behind, and how it completed. *)
Definition state_after {T A} (m : Op T A) (s : ListView T) : ListView T := snd (m s).
Definition completion {T A} (m : Op T A) (s : ListView T) : Completion A := fst (m s).

(** The user scrolls the container to [offset]; the browser then runs the
    scroll listener. *)
Definition scroll_signal {T} `{Truthy T} (offset : Z) : Op T unit :=
  exec modify (set_scrollTop offset) ;; onScroll.

(** The layout gives the container the height [viewport]; the browser
    then runs the resize listener. *)
Definition resize_signal {T} `{Truthy T} (viewport : Z) : Op T unit :=
  exec modify (set_clientHeight viewport) ;; onResize.

(** ** The window, as the render pass computes it *)

Section Window.

Context {T : Type} `{Truthy T}.

(** The slots are the children after the sentinel. *)
Definition slot_count (s : ListView T) : Z :=
  Z.of_nat (length (children (container s))) - RUNWAY_COUNT.

Definition slot_node (s : ListView T) (i : Z) : option NodeId :=
  Js.index (children (container s)) (i + RUNWAY_COUNT).

(** What the getter [virtualItemCount] returns in state [s]. *)
Definition visibleCount (s : ListView T) : Z :=
  ceil_div (container_clientHeight (container s)) (itemHeight (options s))
  + DSURPLUS_COUNT.

Definition startIndex (s : ListView T) : Z :=
  floor_div (scrollTop (container s)) (itemHeight (options s)).

Definition virtualList (s : ListView T) : list T :=
  slice (sourceList s) (startIndex s) (startIndex s + visibleCount s).

(** Vertical offset given to slot [index]. *)
Definition slot_y (s : ListView T) (index : Z) : Z :=
  scrollTop (container s) + index * itemHeight (options s)
  - rem (scrollTop (container s)) (itemHeight (options s)).

(** The item bound to slot [index], if the pass binds one. *)
Definition slot_bound (s : ListView T) (index : Z) : option T :=
  match Js.index (virtualList s) index with
  | Some d => if truthy d then Some d else None
  | None => None
  end.

(** The writes of one iteration on the node of slot [index]. *)
Definition paint_slot (s : ListView T) (index : Z) (node : NodeId)
    (d : gmap nat Element) : gmap nat Element :=
  let d1 := alter (with_transform (0, slot_y s index)) node d in
  match slot_bound s index with
  | Some _ => alter (with_dataset_index (index + startIndex s)) node d1
  | None => d1
  end.

(** The element that slot [i] holds after its iteration. *)
Definition painted_element (w : ListView T) (i : Z) (e : Element) : Element :=
  let e1 := with_transform (0, slot_y w i) e in
  match slot_bound w i with
  | Some _ => with_dataset_index (i + startIndex w) e1
  | None => e1
  end.

Definition slot_calls (s : ListView T) (index : Z) (node : NodeId)
  : list (Event T) :=
  match slot_bound s index with
  | Some data => [Call_renderHandler (Some node) data (index + startIndex s)]
  | None => []
  end.

(** The writes and the calls of the iterations [indices], in order. *)
Fixpoint paint_slots (s : ListView T) (indices : list Z)
    (d : gmap nat Element) : gmap nat Element :=
  match indices with
  | [] => d
  | i :: rest =>
      paint_slots s rest
        (match slot_node s i with Some c => paint_slot s i c d | None => d end)
  end.

Fixpoint window_calls (s : ListView T) (indices : list Z) : list (Event T) :=
  match indices with
  | [] => []
  | i :: rest =>
      match slot_node s i with Some c => slot_calls s i c | None => [] end
      ++ window_calls s rest
  end.

(** The loop body of [_renderList] with the arguments it gets in a pass
    that starts in state [w]. *)
Definition body_of (w : ListView T) : Z -> Op T unit :=
  render_slot (scrollTop (container w)) (itemHeight (options w))
    (rem (scrollTop (container w)) (itemHeight (options w)))
    (startIndex w) (virtualList w).

(** The state after a render pass that completed the iterations [done]. *)
Definition rendered (s : ListView T) (done : list Z) : ListView T :=
  mkListView (sourceList s) (options s)
    (mkCachedValue (runwayHeight (cachedValue s)) (runwayWidth (cachedValue s))
       (scrollbarWidth (cachedValue s)) (container_clientHeight (container s)))
    (container s) (runway s) (paint_slots s done (dom s)) (next_node s)
    (trace s ++ Call_renderList :: window_calls s done).

(** The state after [_stretchList]. *)
Definition stretched (s : ListView T) : ListView T :=
  state_after _stretchList s.

(** The store after the factory has made the nodes [nodes]. *)
Definition created (nodes : list NodeId) (d : gmap nat Element)
  : gmap nat Element :=
  foldl (fun d node => <[node := blank_element]> d) d nodes.

(** The position in the buffer at which [insertData] inserts. *)
Definition insert_position (len : Z) (index : option Z) : Z :=
  match index with
  | None => len
  | Some index => if (index <? 0) || (len <? index) then len else index
  end.

(** The state in which [updateData] calls [_stretchList]: the buffer is
    replaced, the sizes of the sentinel are cached unless [fixedSize], the
    children after the first two are removed from the last one down, and
    [visibleCount] new nodes are appended. *)
Definition rebuilt (dataList : list T) (s : ListView T) : ListView T :=
  let n := visibleCount s in
  let nodes := seq (next_node s) (Z.to_nat n) in
  let sentinel := default blank_element (dom s !! runway s) in
  let kept := take 2 (children (container s)) in
  let gone := reverse (drop 2 (children (container s))) in
  let top_reset := Z.of_nat (length dataList) <=? n in
  mkListView dataList (options s)
    (if fixedSize (options s)
     then mkCachedValue (runwayHeight (cachedValue s))
            (runwayWidth (cachedValue s)) (scrollbarWidth (cachedValue s))
            (container_clientHeight (container s))
     else mkCachedValue (clientHeight sentinel) (clientWidth sentinel)
            (scrollbarWidth (cachedValue s))
            (container_clientHeight (container s)))
    (mkContainer (container_clientHeight (container s))
       (if top_reset then 0 else scrollTop (container s))
       (kept ++ nodes))
    (runway s) (created nodes (dom s)) (next_node s + Z.to_nat n)%nat
    (trace s
     ++ (if fixedSize (options s) then [] else [Call_measureSize])
     ++ map Call_removeChild gone
     ++ map Call_createHandler nodes
     ++ [Call_append nodes]
     ++ (if top_reset then [Call_scrollTo 0] else [])).

(** The state in which [onResize] calls [_renderList]: the pool has grown
    by the missing slots when the container is higher than the cached
    height, and is left alone otherwise. *)
Definition resized (s : ListView T) : ListView T :=
  let cachedHeight := virtualContainerHeight (cachedValue s) in
  let actualHeight := container_clientHeight (container s) in
  if cachedHeight <? actualHeight then
    let nodes :=
      seq (next_node s) (Z.to_nat (visibleCount s - slot_count s)) in
    mkListView (sourceList s) (options s) (cachedValue s)
      (mkContainer actualHeight (scrollTop (container s))
         (children (container s) ++ nodes))
      (runway s) (created nodes (dom s))
      (next_node s + Z.to_nat (visibleCount s - slot_count s))%nat
      (trace s ++ map Call_createHandler nodes ++ [Call_append nodes])
  else if actualHeight <? cachedHeight then
    set_trace (trace s ++ [Call_recycleList]) s
  else s.

(** *** Observations on a state *)

(** The translation of a node and its index tag. *)
Definition position_of (s : ListView T) (node : NodeId) : option (Z * Z) :=
  dom s !! node ≫= style_transform.

Definition tag_of (s : ListView T) (node : NodeId) : option Z :=
  dom s !! node ≫= dataset_index.

(** The events that [s'] has recorded since [s]. *)
Definition events_since (s s' : ListView T) : list (Event T) :=
  drop (length (trace s)) (trace s').

(** The data indices handed to [renderHandler] in a run of events, and the
    nodes they were bound to. *)
Definition bound_index (e : Event T) : option Z :=
  match e with Call_renderHandler _ _ i => Some i | _ => None end.

Definition bound_indices (evs : list (Event T)) : list Z := omap bound_index evs.

Definition bound_node (e : Event T) : option NodeId :=
  match e with Call_renderHandler node _ _ => node | _ => None end.

Definition bound_nodes (evs : list (Event T)) : list NodeId := omap bound_node evs.

Definition is_renderHandler (e : Event T) : bool :=
  match e with Call_renderHandler _ _ _ => true | _ => false end.

Definition is_renderList (e : Event T) : bool :=
  match e with Call_renderList => true | _ => false end.

Definition is_stretchList (e : Event T) : bool :=
  match e with Call_stretchList => true | _ => false end.

Definition count_events (p : Event T -> bool) (evs : list (Event T)) : nat :=
  length (List.filter p evs).

(** *** Conditions on a state *)

(** The container holds the sentinel first, no node twice, every child is
    a node of the store, and the factory has not yet handed out the
    identities from [next_node] on. *)
Definition attached (s : ListView T) : Prop :=
  children (container s) !! 0%nat = Some (runway s)
  /\ NoDup (children (container s))
  /\ Forall (fun c => is_Some (dom s !! c) /\ (c < next_node s)%nat)
       (children (container s)).

#[export] Instance attached_dec (s : ListView T) : Decision (attached s).
Proof. unfold attached. apply _. Defined.

(** The rows have a height, and the pool has a slot for every iteration
    of the render pass. *)
Definition pool_ready (s : ListView T) : Prop :=
  0 < itemHeight (options s) /\ visibleCount s <= slot_count s.

(** The three mutations of the buffer. *)
Inductive Mutation :=
| InsertData (dataList : list T) (index : option Z)
| DeleteData (index : Z) (count : option Z)
| UpdateData (dataList : list T).

Definition mutate (m : Mutation) : Op T unit :=
  match m with
  | InsertData dataList index => insertData dataList index
  | DeleteData index count => exec deleteData index count ;; op_ret tt
  | UpdateData dataList => updateData dataList
  end.

End Window.

Global Arguments Mutation : clear implicits.

(** ** Sample engines *)

Module Sample.

(** Rows of 24 pixels in a viewport of 100 pixels, so five slots; the
    sentinel is a box of one pixel. *)
Definition options24 : Options := mkOptions 24 false.
Definition sentinel : Element := mkElement 1 1 None None.

(** An engine just constructed: no slot yet. *)
Definition fresh : ListView Z := construct options24 100 sentinel.

(** The same engine after [updateData] of a hundred numbers 1..100. *)
Definition numbers : list Z := seqZ 1 100.
Definition mounted : ListView Z := state_after (updateData numbers) fresh.

(** ... and after the user scrolled it to offset 240. *)
Definition scrolled : ListView Z := state_after (scroll_signal 240) mounted.

(** A short buffer of three numbers in the same viewport. *)
Definition short : ListView Z := state_after (updateData [10; 20; 30]) fresh.

(** Rows of 24 pixels in a viewport of 72 pixels, so three slots, over a
    buffer whose second item is the number 0. *)
Definition fresh72 : ListView Z := construct options24 72 sentinel.
Definition sparse : ListView Z := state_after (updateData [5; 0; 8; 9]) fresh72.

(** The viewport then shrinks to 48 pixels: two slots are visible and the
    pool still holds three. *)
Definition shrunk : ListView Z := state_after (resize_signal 48) sparse.

(** The user scrolls that engine to offset 24: the state in which the
    render pass of the scroll listener starts. *)
Definition shrunk_scrolled : ListView Z := set_scrollTop 24 shrunk.

End Sample.

(** ** The rest of the class *)

Section Rest.

Context {T : Type} `{Truthy T}.

Definition set_options (o : Options) (s : ListView T) : ListView T :=
  mkListView (sourceList s) o (cachedValue s) (container s) (runway s) (dom s)
    (next_node s) (trace s).

(** [updateOptions(options)] replaces the options; the call that passes
    [suppressible] on to the scrollbar decoration does not touch the list. *)
Definition updateOptions (o : Options) : Op T unit :=
  modify (set_options o).

(** The iterations that a render pass completes in [s]: all of them, or
    those before the first slot that has no node. *)
Definition window_of (s : ListView T) : list Z :=
  seqZ 0 (Z.min (visibleCount s) (Z.max (slot_count s) 0)).

(** How a render pass completes in [s]. *)
Definition render_outcome (s : ListView T) : Completion unit :=
  if visibleCount s <=? Z.max (slot_count s) 0 then Normal tt
  else Throw TypeError.

(** An engine in working order: attached, with a slot for every visible
    row, and with the cached viewport height up to date. *)
Definition mounted (s : ListView T) : Prop :=
  attached s /\ pool_ready s
  /\ virtualContainerHeight (cachedValue s)
     = container_clientHeight (container s).

#[export] Instance mounted_dec (s : ListView T) : Decision (mounted s).
Proof. unfold mounted, pool_ready. apply _. Defined.


(** The calls that change which nodes the container holds. *)
Definition is_pool_event (e : Event T) : bool :=
  match e with
  | Call_createHandler _ | Call_removeChild _ | Call_append _ => true
  | _ => false
  end.

(** What can happen to an engine: a call of its public interface or a
    signal of the browser. *)
Inductive Signal :=
| Sig_mutate (m : Mutation T)
| Sig_renderItem (data : T) (index : Z)
| Sig_doResize
| Sig_scroll (offset : Z)
| Sig_resize (viewport : Z).

Definition handle (sig : Signal) : Op T unit :=
  match sig with
  | Sig_mutate m => mutate m
  | Sig_renderItem data index => renderItem data index
  | Sig_doResize => doResize
  | Sig_scroll offset => scroll_signal offset
  | Sig_resize viewport => resize_signal viewport
  end.

(** A run of signals, stopped by the first throw. *)
Fixpoint handle_all (sigs : list Signal) : Op T unit :=
  match sigs with
  | [] => op_ret tt
  | sig :: rest => exec handle sig ;; handle_all rest
  end.

End Rest.

Global Arguments Signal : clear implicits.

Section Rest2.

Context {T : Type} `{Truthy T}.

(** The signals whose code calls the factory or removes children. *)
Definition touches_pool (sig : Signal T) : bool :=
  match sig with
  | Sig_mutate (UpdateData _) | Sig_doResize | Sig_resize _ => true
  | _ => false
  end.

(** The number of nodes that [onResize] makes in [s]. *)
Definition resize_deficit (s : ListView T) : nat :=
  if virtualContainerHeight (cachedValue s)
     <? container_clientHeight (container s)
  then Z.to_nat (visibleCount s - slot_count s)
  else 0%nat.

End Rest2.

(** ** More sample engines *)

Module Sample2.

(** The engine of [Sample.sparse] (three slots) after the layout has given
    its container 100 pixels, before the resize listener runs. *)
Definition taller : ListView Z := set_clientHeight 100 Sample.sparse.

End Sample2.

Module Sample3.

(** Rows of 12 pixels in place of 24. *)
Definition options12 : Options := mkOptions 12 false.

End Sample3.

Module Sample4.


(** The engine of [Sample.short] (five slots over the buffer
    [10, 20, 30]) while its container is pulled 30 pixels past the top,
    as an elastic overscroll does. *)
Definition overscrolled : ListView Z := set_scrollTop (-30) Sample.short.

End Sample4.

(** ** The listeners of the engine *)

(** Where the class listens, and for what. *)
Inductive EventTarget := Window | TheContainer.
Inductive EventName := Name_scroll | Name_click | Name_resize.

(** The methods that serve as listeners. *)
Inductive Handler := Handler_onScroll | Handler_onClick | Handler_onResize.

(** A function value: a method as the class holds it ([this.onScroll]),
    or the function that the [serial]-th call of [bind] has made from a
    method.  Every call of [bind] makes a function of its own. *)
Inductive Callback :=
| Method (h : Handler)
| Bound (h : Handler) (serial : nat).

Record Listener := mkListener {
  on_target : EventTarget;
  on_name : EventName;
  callback : Callback;
}.

#[export] Instance EventTarget_eq_dec : EqDecision EventTarget.
Proof. solve_decision. Defined.
#[export] Instance EventName_eq_dec : EqDecision EventName.
Proof. solve_decision. Defined.
#[export] Instance Handler_eq_dec : EqDecision Handler.
Proof. solve_decision. Defined.
#[export] Instance Callback_eq_dec : EqDecision Callback.
Proof. solve_decision. Defined.
#[export] Instance Listener_eq_dec : EqDecision Listener.
Proof. solve_decision. Defined.

(** [target.addEventListener(name, f)]: a listener that is registered
    already is not registered again. *)
Definition addEventListener (l : Listener) (ls : list Listener)
  : list Listener :=
  if decide (l ∈ ls) then ls else ls ++ [l].

(** [target.removeEventListener(name, f)] *)
Definition removeEventListener (l : Listener) (ls : list Listener)
  : list Listener :=
  filter (fun x => x <> l) ls.

(** The callbacks registered on [target] for [name], in the order of
    their registration. *)
Definition callbacks_for (target : EventTarget) (name : EventName)
    (ls : list Listener) : list Callback :=
  map callback
    (filter (fun l => on_target l = target /\ on_name l = name) ls).

Section Host.

Context {T : Type} `{Truthy T}.

(** The engine with the listeners registered on the window and on its
    container, and the number of calls of [bind] so far. *)
Record Host := mkHost {
  list_view : ListView T;
  listeners : list Listener;
  bind_count : nat;
}.

(** [target.addEventListener(name, this.handler.bind(this))] *)
Definition add_bound (target : EventTarget) (name : EventName)
    (h : Handler) (host : Host) : Host :=
  mkHost (list_view host)
    (addEventListener (mkListener target name (Bound h (bind_count host)))
       (listeners host))
    (S (bind_count host)).

(** [invoke()]: the listeners and the first measurement.  The call
    [this.scrollbar.invoke()] belongs to the scrollbar decoration. *)
Definition invoke (host : Host) : Host :=
  let h1 := add_bound TheContainer Name_scroll Handler_onScroll host in
  let h2 := add_bound TheContainer Name_click Handler_onClick h1 in
  let h3 :=
    if fixedSize (options (list_view h2)) then h2
    else add_bound Window Name_resize Handler_onResize h2 in
  mkHost (state_after _measureSize (list_view h3)) (listeners h3)
    (bind_count h3).

(** The three calls of [removeEventListener] in [dispose()], which pass
    the methods themselves. *)
Definition dispose_removeEventListeners (host : Host) : Host :=
  let ls1 :=
    removeEventListener
      (mkListener Window Name_resize (Method Handler_onResize))
      (listeners host) in
  let ls2 :=
    removeEventListener
      (mkListener TheContainer Name_scroll (Method Handler_onScroll)) ls1 in
  let ls3 :=
    removeEventListener
      (mkListener TheContainer Name_click (Method Handler_onClick)) ls2 in
  mkHost (list_view host) ls3 (bind_count host).

(** What a callback does to the engine when the browser calls it.  A
    bound method runs on the engine; [onClick] hands the event to the
    event bus.  A method that is not bound runs with the event target as
    [this] and throws at its first access to a field of the engine. *)
Definition run_callback (c : Callback) : Op T unit :=
  match c with
  | Bound Handler_onScroll _ => onScroll
  | Bound Handler_onResize _ => onResize
  | Bound Handler_onClick _ => op_ret tt
  | Method _ => throw TypeError
  end.

(** The browser calls the listeners in turn; a throw of one of them is
    reported and does not keep the next from running. *)
Fixpoint run_callbacks (cs : list Callback) (s : ListView T) : ListView T :=
  match cs with
  | [] => s
  | c :: rest => run_callbacks rest (state_after (run_callback c) s)
  end.

Definition dispatch (target : EventTarget) (name : EventName) (host : Host)
  : Host :=
  mkHost
    (run_callbacks (callbacks_for target name (listeners host))
       (list_view host))
    (listeners host) (bind_count host).

(** The user scrolls the container to [offset]. *)
Definition scroll_event (offset : Z) (host : Host) : Host :=
  dispatch TheContainer Name_scroll
    (mkHost (set_scrollTop offset (list_view host)) (listeners host)
       (bind_count host)).

(** The window is resized and the layout gives the container the height
    [viewport]. *)
Definition resize_event (viewport : Z) (host : Host) : Host :=
  dispatch Window Name_resize
    (mkHost (set_clientHeight viewport (list_view host)) (listeners host)
       (bind_count host)).

(** A host right after construction: nothing is registered. *)
Definition new_host (s : ListView T) : Host := mkHost s [] 0.

(** Every registered callback is a function that [bind] has made. *)
Definition registered (host : Host) : Prop :=
  Forall (fun l => match callback l with
                   | Bound _ serial => (serial < bind_count host)%nat
                   | Method _ => False
                   end) (listeners host).

End Host.

Global Arguments Host : clear implicits.

(** * Verification *)

(** ** Facts about the JavaScript primitives *)

Section JsFacts.

Context {A : Type}.
Implicit Types (arr items : list A) (i : Z).

Lemma index_Some arr i x :
  Js.index arr i = Some x <-> 0 <= i /\ arr !! Z.to_nat i = Some x.
Proof.
  unfold Js.index. destruct (Z.ltb_spec i 0); split.
  - discriminate.
  - intros [? _]. lia.
  - auto.
  - tauto.
Qed.

Lemma index_is_Some arr i :
  is_Some (Js.index arr i) <-> 0 <= i < Z.of_nat (length arr).
Proof.
  unfold Js.index. destruct (Z.ltb_spec i 0).
  - split; [intros [? ?]; discriminate | lia].
  - rewrite lookup_lt_is_Some. lia.
Qed.

Lemma index_of_nat arr (n : nat) : Js.index arr (Z.of_nat n) = arr !! n.
Proof.
  unfold Js.index. destruct (Z.ltb_spec (Z.of_nat n) 0); [lia |].
  by rewrite Nat2Z.id.
Qed.

(** Inside a window that starts at a non-negative index, [slice] reads
    the array at the shifted index. *)
Lemma index_slice arr from n i :
  0 <= from -> 0 <= i < n ->
  Js.index (slice arr from (from + n)) i = Js.index arr (from + i).
Proof.
  intros Hfrom Hi. unfold Js.index, slice, relative.
  destruct (Z.ltb_spec i 0); [lia |].
  destruct (Z.ltb_spec (from + i) 0); [lia |].
  destruct (Z.ltb_spec from 0); [lia |].
  destruct (Z.ltb_spec (from + n) 0); [lia |].
  set (len := Z.of_nat (length arr)).
  destruct (Z_lt_le_dec (from + i) (Z.min (from + n) len)) as [Hlt | Hge].
  - rewrite lookup_take_lt by lia. rewrite lookup_drop. f_equal. lia.
  - rewrite lookup_take_ge by lia. symmetry. apply lookup_ge_None. lia.
Qed.

(** [splice] cuts the array in three: what stays in front, what is
    removed, and what stays behind. *)
Lemma splice_removed arr start count items :
  let k := Z.to_nat (relative (Z.of_nat (length arr)) start) in
  let removed := fst (splice arr start count items) in
  arr = take k arr ++ removed ++ drop (k + length removed) arr
  /\ snd (splice arr start count items)
     = take k arr ++ items ++ drop (k + length removed) arr
  /\ Z.of_nat (length removed)
     = Z.min (Z.max count 0) (Z.of_nat (length arr) - Z.of_nat k).
Proof.
  intros k removed. subst k removed. unfold splice. simpl.
  set (len := Z.of_nat (length arr)).
  assert (0 <= relative len start <= len) as Hk
    by (unfold relative; destruct (Z.ltb_spec start 0); lia).
  set (k := relative len start) in *.
  set (dc := Z.min (Z.max count 0) (len - k)).
  assert (length (take (Z.to_nat dc) (drop (Z.to_nat k) arr)) = Z.to_nat dc) as Hlen.
  { rewrite length_take, length_drop. lia. }
  rewrite Hlen. split; [| split].
  - rewrite <- (drop_drop arr (Z.to_nat dc) (Z.to_nat k)).
    by rewrite take_drop, take_drop.
  - do 3 f_equal. lia.
  - lia.
Qed.

End JsFacts.

Lemma ceil_div_spec a b :
  0 < b -> (ceil_div a b - 1) * b < a <= ceil_div a b * b.
Proof.
  intros Hb. unfold ceil_div.
  pose proof (Z.div_mod (- a) b ltac:(lia)).
  pose proof (Z.mod_pos_bound (- a) b Hb). nia.
Qed.

Lemma floor_div_spec a b :
  0 < b -> floor_div a b * b <= a < (floor_div a b + 1) * b.
Proof.
  intros Hb. unfold floor_div.
  pose proof (Z.div_mod a b ltac:(lia)).
  pose proof (Z.mod_pos_bound a b Hb). nia.
Qed.

Lemma rem_nonneg a b : 0 <= a -> 0 < b -> rem a b = a - floor_div a b * b.
Proof.
  intros Ha Hb. unfold rem, floor_div.
  rewrite Z.rem_mod_nonneg by lia.
  pose proof (Z.div_mod a b ltac:(lia)). lia.
Qed.

(** ** The render pass *)

Section RenderPass.

Context {T : Type} `{Truthy T}.
Implicit Types (s w : ListView T) (i : Z) (c : NodeId).

(** The loop body at slot [i], run in a state [s] that has the children
    of [w]. *)
Lemma render_slot_present w s i c :
  children (container s) = children (container w) ->
  slot_node w i = Some c ->
  body_of w i s
  = (Normal tt,
     set_trace (trace s ++ slot_calls w i c) (set_dom (paint_slot w i c (dom s)) s)).
Proof.
  intros Hch Hc. unfold body_of, render_slot, slot_node in *.
  unfold op_bind at 1. unfold gets at 1. rewrite Hch, Hc.
  unfold paint_slot, slot_calls, slot_bound, slot_y.
  destruct (Js.index (virtualList w) i) as [d |]; [destruct (truthy d) |];
    destruct s; simpl; by rewrite ?app_nil_r.
Qed.

Lemma render_slot_absent w s i :
  children (container s) = children (container w) ->
  slot_node w i = None ->
  body_of w i s = (Throw TypeError, s).
Proof.
  intros Hch Hc. unfold body_of, render_slot, slot_node in *.
  unfold op_bind, gets. by rewrite Hch, Hc.
Qed.

Lemma for_each_cons i rest (body : Z -> Op T unit) s :
  for_each (i :: rest) body s
  = match body i s with
    | (Normal _, s') => for_each rest body s'
    | (Throw e, s') => (Throw e, s')
    end.
Proof. reflexivity. Qed.

(** The loop stops at the first slot that has no node; up to there it
    performs the writes and the calls of each iteration in turn. *)
Lemma for_each_render_slot w indices s :
  children (container s) = children (container w) ->
  exists ran,
    ran `prefix_of` indices
    /\ state_after (for_each indices (body_of w)) s
       = set_trace (trace s ++ window_calls w ran)
           (set_dom (paint_slots w ran (dom s)) s)
    /\ (Forall (fun i => is_Some (slot_node w i)) indices ->
        completion (for_each indices (body_of w)) s = Normal tt
        /\ ran = indices).
Proof.
  revert s. induction indices as [| i rest IH]; intros s Hch.
  - exists []. split; [done |]. split; [| done].
    destruct s; unfold state_after; simpl. by rewrite app_nil_r.
  - destruct (slot_node w i) as [c |] eqn:Hc.
    + destruct (IH (set_trace (trace s ++ slot_calls w i c)
                      (set_dom (paint_slot w i c (dom s)) s)))
        as (ran & Hpre & Hst & Hall); [done |].
      exists (i :: ran). split; [by apply prefix_cons |].
      unfold state_after, completion in *.
      rewrite for_each_cons, (render_slot_present w s i c Hch Hc).
      split.
      * rewrite Hst. simpl. rewrite Hc. destruct s; simpl.
        by rewrite <- app_assoc.
      * intros Hf. apply Forall_cons in Hf as [_ Hf].
        destruct (Hall Hf) as [-> ->]. done.
    + exists []. split; [apply prefix_nil |].
      unfold state_after, completion.
      rewrite for_each_cons, (render_slot_absent w s i Hch Hc). split.
      * destruct s; simpl. by rewrite app_nil_r.
      * intros Hf. apply Forall_cons in Hf as [[? Hn] _]. congruence.
Qed.

(** A render pass ends in [rendered s ran] for a prefix [ran] of the
    iterations, and completes all of them when the pool is ready. *)
Lemma _renderList_rendered s :
  exists ran,
    ran `prefix_of` seqZ 0 (visibleCount s)
    /\ state_after _renderList s = rendered s ran
    /\ (pool_ready s ->
        completion _renderList s = Normal tt
        /\ ran = seqZ 0 (visibleCount s)).
Proof.
  set (s0 := set_cachedValue
               (mkCachedValue (runwayHeight (cachedValue s))
                  (runwayWidth (cachedValue s)) (scrollbarWidth (cachedValue s))
                  (container_clientHeight (container s)))
               (set_trace (trace s ++ [Call_renderList]) s)).
  destruct (for_each_render_slot s (seqZ 0 (visibleCount s)) s0)
    as (ran & Hpre & Hst & Hall); [done |].
  exists ran. split; [done |].
  unfold state_after, completion in *. split.
  - transitivity (snd (for_each (seqZ 0 (visibleCount s)) (body_of s) s0)); [done |].
    rewrite Hst. unfold rendered. destruct s; simpl.
    by rewrite <- app_assoc.
  - intros Hready.
    destruct Hall as [Hc ->].
    + apply Forall_forall. intros i Hi. apply elem_of_seqZ in Hi.
      apply index_is_Some. unfold pool_ready, slot_count, RUNWAY_COUNT in *. lia.
    + split; [| done]. exact Hc.
Qed.

End RenderPass.

(** ** How a render pass completes *)

Section RenderOutcome.

Context {T : Type} `{Truthy T}.
Implicit Types (s w : ListView T) (i : Z) (c : NodeId).

(** The loop up to the first slot without a node. *)
Lemma for_each_render_slot_stop w before i after s :
  children (container s) = children (container w) ->
  Forall (fun j => is_Some (slot_node w j)) before ->
  slot_node w i = None ->
  for_each (before ++ i :: after) (body_of w) s
  = (Throw TypeError,
     set_trace (trace s ++ window_calls w before)
       (set_dom (paint_slots w before (dom s)) s)).
Proof.
  revert s. induction before as [| j before IH]; intros s Hch Hall Hi.
  - simpl app. rewrite for_each_cons, (render_slot_absent w s i Hch Hi).
    destruct s; simpl. by rewrite app_nil_r.
  - apply Forall_cons in Hall as [[c Hc] Hall].
    change ((j :: before) ++ i :: after) with (j :: (before ++ i :: after)).
    rewrite for_each_cons, (render_slot_present w s j c Hch Hc).
    rewrite IH by done. simpl. rewrite Hc. destruct s; simpl.
    by rewrite <- app_assoc.
Qed.

Lemma for_each_render_slot_all w indices s :
  children (container s) = children (container w) ->
  Forall (fun j => is_Some (slot_node w j)) indices ->
  for_each indices (body_of w) s
  = (Normal tt,
     set_trace (trace s ++ window_calls w indices)
       (set_dom (paint_slots w indices (dom s)) s)).
Proof.
  intros Hch Hall.
  destruct (for_each_render_slot w indices s Hch) as (ran & _ & Hst & Hc).
  destruct (Hc Hall) as [Hn ->]. unfold state_after, completion in *.
  destruct (for_each indices (body_of w) s) as [r s']. simpl in *.
  by rewrite Hn, Hst.
Qed.

(** A render pass, exactly. *)
Lemma _renderList_exact s :
  _renderList s = (render_outcome s, rendered s (window_of s)).
Proof.
  set (s0 := set_cachedValue
               (mkCachedValue (runwayHeight (cachedValue s))
                  (runwayWidth (cachedValue s)) (scrollbarWidth (cachedValue s))
                  (container_clientHeight (container s)))
               (set_trace (trace s ++ [Call_renderList]) s)).
  change (_renderList s)
    with (for_each (seqZ 0 (visibleCount s)) (body_of s) s0).
  assert (forall j, 0 <= j < Z.max (slot_count s) 0 -> is_Some (slot_node s j))
    as Hsome.
  { intros j Hj. apply index_is_Some. unfold slot_count, RUNWAY_COUNT in *. lia. }
  unfold render_outcome, window_of.
  destruct (Z.leb_spec (visibleCount s) (Z.max (slot_count s) 0)) as [Hle | Hgt].
  - rewrite Z.min_l by done.
    rewrite for_each_render_slot_all; [| done |].
    + f_equal. unfold rendered. destruct s; simpl. by rewrite <- app_assoc.
    + apply Forall_forall. intros j Hj%elem_of_seqZ. apply Hsome. lia.
  - rewrite Z.min_r by lia.
    set (m := Z.max (slot_count s) 0) in *.
    replace (visibleCount s) with (m + (visibleCount s - m)) at 1 by lia.
    rewrite seqZ_app by lia.
    rewrite (seqZ_cons (0 + m)) by lia.
    rewrite (for_each_render_slot_stop s); [| done | |].
    + f_equal. unfold rendered. destruct s; simpl. by rewrite <- app_assoc.
    + apply Forall_forall. intros j Hj%elem_of_seqZ. apply Hsome. lia.
    + destruct (slot_node s (0 + m)) as [c |] eqn:Hc; [| done].
      assert (is_Some (slot_node s (0 + m))) as Hs by eauto.
      apply index_is_Some in Hs.
      unfold slot_count, RUNWAY_COUNT in *. lia.
Qed.

End RenderOutcome.

(** ** What a render pass writes and whom it calls *)

Section Painting.

Context {T : Type} `{Truthy T}.
Implicit Types (s w : ListView T) (i k : Z) (c : NodeId) (d : gmap nat Element).

Lemma slot_node_inj w i j c :
  NoDup (children (container w)) ->
  slot_node w i = Some c -> slot_node w j = Some c -> i = j.
Proof.
  intros Hnd Hi Hj. unfold slot_node in *.
  apply index_Some in Hi as [Hi0 Hi]. apply index_Some in Hj as [Hj0 Hj].
  pose proof (NoDup_lookup _ _ _ _ Hnd Hi Hj). lia.
Qed.

Lemma paint_slot_lookup_eq w i c d :
  paint_slot w i c d !! c = painted_element w i <$> d !! c.
Proof.
  unfold paint_slot, painted_element.
  destruct (slot_bound w i); rewrite ?lookup_alter_eq;
    by destruct (d !! c).
Qed.

Lemma paint_slot_lookup_ne w i c c' d :
  c <> c' -> paint_slot w i c d !! c' = d !! c'.
Proof.
  intros Hne. unfold paint_slot.
  destruct (slot_bound w i); by rewrite ?lookup_alter_ne.
Qed.

(** A node that is the slot of no iteration is not written. *)
Lemma paint_slots_other w indices d c :
  Forall (fun i => slot_node w i <> Some c) indices ->
  paint_slots w indices d !! c = d !! c.
Proof.
  revert d. induction indices as [| j rest IH]; intros d Hall; [done |].
  apply Forall_cons in Hall as [Hj Hrest]. simpl. rewrite IH by done.
  destruct (slot_node w j) as [c' |]; [| done].
  apply paint_slot_lookup_ne. congruence.
Qed.

(** The node of an iteration holds exactly the writes of that iteration. *)
Lemma paint_slots_at w indices d i c :
  NoDup (children (container w)) -> NoDup indices ->
  i ∈ indices -> slot_node w i = Some c ->
  paint_slots w indices d !! c = painted_element w i <$> d !! c.
Proof.
  intros Hch. revert d.
  induction indices as [| j rest IH]; intros d Hnd Hin Hc.
  - by apply elem_of_nil in Hin.
  - apply NoDup_cons in Hnd as [Hj Hnd]. simpl.
    apply elem_of_cons in Hin as [<- | Hin].
    + rewrite Hc, paint_slots_other; [apply paint_slot_lookup_eq |].
      apply Forall_forall. intros k Hk Hkc.
      rewrite (slot_node_inj w i k c) in Hj by done. done.
    + rewrite IH by done. f_equal.
      destruct (slot_node w j) as [c' |] eqn:Hc'; [| done].
      apply paint_slot_lookup_ne. intros ->.
      rewrite (slot_node_inj w j i c) in Hj by done. done.
Qed.

(** The calls of the pass: one for each iteration that binds an item. *)
Lemma elem_of_window_calls w indices (e : Event T) :
  e ∈ window_calls w indices <->
  exists i c data,
    i ∈ indices /\ slot_node w i = Some c /\ slot_bound w i = Some data
    /\ e = Call_renderHandler (Some c) data (i + startIndex w).
Proof.
  induction indices as [| j rest IH]; simpl.
  - split; [intros Hin; by apply elem_of_nil in Hin |].
    intros (i & c & data & Hin & _). by apply elem_of_nil in Hin.
  - rewrite elem_of_app, IH. split.
    + intros [Hj | (i & c & data & Hin & Hrest)].
      * unfold slot_calls in Hj.
        destruct (slot_node w j) as [c |] eqn:Hc;
          [| by apply elem_of_nil in Hj].
        destruct (slot_bound w j) as [data |] eqn:Hb;
          [| by apply elem_of_nil in Hj].
        apply list_elem_of_singleton in Hj as ->.
        exists j, c, data. by rewrite elem_of_cons; auto.
      * exists i, c, data. rewrite elem_of_cons. auto.
    + intros (i & c & data & Hin & Hc & Hb & ->).
      apply elem_of_cons in Hin as [-> | Hin].
      * left. unfold slot_calls. rewrite Hc, Hb. apply list_elem_of_singleton. done.
      * right. by exists i, c, data.
Qed.

Lemma window_calls_renderHandler w indices :
  Forall (fun e => is_renderHandler e = true) (window_calls w indices).
Proof.
  apply Forall_forall. intros e He.
  apply elem_of_window_calls in He as (i & c & data & _ & _ & _ & ->). done.
Qed.

Lemma elem_of_bound_indices (evs : list (Event T)) k :
  k ∈ bound_indices evs <->
  exists node data, Call_renderHandler node data k ∈ evs.
Proof.
  unfold bound_indices. rewrite list_elem_of_omap. split.
  - intros (e & He & Hk). destruct e; try discriminate.
    injection Hk as ->. eauto.
  - intros (node & data & He). eauto.
Qed.

Lemma events_since_rendered s ran :
  events_since s (rendered s ran) = Call_renderList :: window_calls s ran.
Proof. unfold events_since, rendered. simpl. by rewrite drop_app_length. Qed.

(** With the scroll offset in the buffer's range, slot [i] of the window
    shows the item at [startIndex + i]. *)
Lemma startIndex_nonneg s :
  0 < itemHeight (options s) -> 0 <= scrollTop (container s) ->
  0 <= startIndex s.
Proof. intros. unfold startIndex, floor_div. by apply Z.div_pos. Qed.

Lemma slot_bound_source s i :
  0 < itemHeight (options s) -> 0 <= scrollTop (container s) ->
  0 <= i < visibleCount s ->
  slot_bound s i
  = match sourceList s !! Z.to_nat (startIndex s + i) with
    | Some data => if truthy data then Some data else None
    | None => None
    end.
Proof.
  intros Hh Htop Hi. unfold slot_bound, virtualList.
  pose proof (startIndex_nonneg s Hh Htop).
  rewrite index_slice by done.
  unfold Js.index. destruct (Z.ltb_spec (startIndex s + i) 0); [lia | done].
Qed.

End Painting.

(** ** The mutations of the buffer *)

Section Buffer.

Context {T : Type} `{Truthy T}.
Implicit Types (s : ListView T) (items : list T).

Lemma _stretchList_stretched s : _stretchList s = (Normal tt, stretched s).
Proof. reflexivity. Qed.

Lemma sourceList_rendered s ran : sourceList (rendered s ran) = sourceList s.
Proof. reflexivity. Qed.

(** A render pass leaves the buffer, the options, the container and the
    sentinel field alone, whether it completes or throws. *)
Lemma _renderList_frame s :
  let s' := state_after _renderList s in
  sourceList s' = sourceList s /\ options s' = options s
  /\ container s' = container s /\ runway s' = runway s
  /\ next_node s' = next_node s.
Proof.
  destruct (_renderList_rendered s) as (ran & _ & Hst & _).
  simpl. by rewrite Hst.
Qed.

Lemma insertData_unfold items index s :
  insertData items index s
  = _renderList
      (stretched
         (set_sourceList
            (snd (splice (sourceList s)
                    (insert_position (Z.of_nat (length (sourceList s))) index)
                    0 items)) s)).
Proof. reflexivity. Qed.

Lemma deleteData_unfold index count s :
  let edit := splice (sourceList s) index (default 1 count) [] in
  let s1 := stretched (set_sourceList (snd edit) s) in
  deleteData index count s
  = match _renderList (set_trace (trace s1 ++ [Call_recycleList]) s1) with
    | (Normal _, s') => (Normal (fst edit), s')
    | (Throw e, s') => (Throw e, s')
    end.
Proof. reflexivity. Qed.

Lemma sourceList_insertData items index s :
  sourceList (state_after (insertData items index) s)
  = snd (splice (sourceList s)
           (insert_position (Z.of_nat (length (sourceList s))) index) 0 items).
Proof.
  unfold state_after. rewrite insertData_unfold.
  exact (proj1 (_renderList_frame _)).
Qed.

Lemma sourceList_deleteData index count s :
  sourceList (state_after (deleteData index count) s)
  = snd (splice (sourceList s) index (default 1 count) []).
Proof.
  unfold state_after. rewrite deleteData_unfold.
  set (s1 := set_trace _ _).
  destruct (_renderList_frame s1) as (Hsrc & _).
  unfold state_after in Hsrc.
  destruct (_renderList s1) as [[[] | e] s']; simpl in *; by rewrite Hsrc.
Qed.

(** Inserting at a position of the buffer puts the items there. *)
Lemma splice_insert (arr : list T) p items :
  0 <= p <= Z.of_nat (length arr) ->
  snd (splice arr p 0 items) = take (Z.to_nat p) arr ++ items ++ drop (Z.to_nat p) arr.
Proof.
  intros Hp. unfold splice, relative. simpl.
  destruct (Z.ltb_spec p 0); [lia |].
  rewrite Z.min_l by lia. do 3 f_equal. lia.
Qed.

(** Deleting one element at the head removes the head. *)
Lemma splice_head (x : T) (arr : list T) :
  splice (x :: arr) 0 1 [] = ([x], arr).
Proof.
  unfold splice, relative. cbn [length Z.ltb Z.compare].
  rewrite (Z.min_l 0) by lia.
  replace (Z.min (Z.max 1 0) (Z.of_nat (S (length arr)) - 0)) with 1 by lia.
  done.
Qed.

End Buffer.

Section BufferClaims.

Context {T : Type} `{Truthy T}.
Implicit Types (s : ListView T) (items : list T).

Lemma pool_ready_ext s s' :
  container s' = container s -> options s' = options s ->
  pool_ready s -> pool_ready s'.
Proof.
  unfold pool_ready, visibleCount, slot_count. by intros -> ->.
Qed.

Lemma completion_deleteData index count s :
  pool_ready s ->
  completion (deleteData index count) s
  = Normal (fst (splice (sourceList s) index (default 1 count) [])).
Proof.
  intros Hready. unfold completion. rewrite deleteData_unfold.
  set (s1 := set_trace _ _).
  destruct (_renderList_rendered s1) as (ran & _ & _ & Hall).
  destruct Hall as [Hc _]; [by apply (pool_ready_ext s) |].
  unfold completion in Hc.
  by destruct (_renderList s1) as [[[] | e] s'].
Qed.

(** C7. [insertData(items, index)] puts [items] at [index] when
    [0 <= index <= length], and at the end of the buffer when the index is
    omitted, negative or beyond the length.  The buffer before the
    position, the items, and the buffer after it keep their order. *)
Theorem insertData_position items index s :
  let l := sourceList s in
  sourceList (state_after (insertData items index) s)
  = match index with
    | Some i =>
        if (0 <=? i) && (i <=? Z.of_nat (length l))
        then take (Z.to_nat i) l ++ items ++ drop (Z.to_nat i) l
        else l ++ items
    | None => l ++ items
    end.
Proof.
  intros l. rewrite sourceList_insertData. fold l.
  set (len := Z.of_nat (length l)).
  assert (snd (splice l len 0 items) = l ++ items) as Hend.
  { rewrite splice_insert by lia. subst len. rewrite Nat2Z.id.
    by rewrite take_ge, drop_ge, app_nil_r by lia. }
  destruct index as [i |]; simpl; [| done].
  destruct (Z.leb_spec 0 i), (Z.leb_spec i len), (Z.ltb_spec i 0),
    (Z.ltb_spec len i); simpl; try lia; try done.
  by apply splice_insert.
Qed.

(** What [insertData] and [deleteData] return is decided by their render
    pass. *)
Lemma completion_insertData items index s :
  completion (insertData items index) s = render_outcome s.
Proof.
  unfold completion. rewrite insertData_unfold, _renderList_exact. done.
Qed.

Lemma completion_deleteData_outcome index count s :
  completion (deleteData index count) s
  = match render_outcome s with
    | Normal _ => Normal (fst (splice (sourceList s) index (default 1 count) []))
    | Throw e => Throw e
    end.
Proof.
  unfold completion. rewrite deleteData_unfold, _renderList_exact.
  change (render_outcome (set_trace _ _)) with (render_outcome s).
  by destruct (render_outcome s) as [[] | e].
Qed.

Lemma render_outcome_ready s : pool_ready s -> render_outcome s = Normal tt.
Proof.
  intros [_ Hle]. unfold render_outcome.
  destruct (Z.leb_spec (visibleCount s) (Z.max (slot_count s) 0)); [done | lia].
Qed.

Lemma render_outcome_short s :
  0 <= slot_count s < visibleCount s -> render_outcome s = Throw TypeError.
Proof.
  intros Hlt. unfold render_outcome.
  destruct (Z.leb_spec (visibleCount s) (Z.max (slot_count s) 0)); [lia | done].
Qed.

Lemma slot_count_nonneg s : attached s -> 0 <= slot_count s.
Proof.
  intros (Hr & _). unfold slot_count, RUNWAY_COUNT.
  apply lookup_lt_Some in Hr. lia.
Qed.

(** C8, amended.  [insertData([x], 0)] makes the buffer one longer with
    [x] at its head, and [deleteData(0, 1)] right after leaves the buffer
    as it was before the insertion; this holds in every state.  What the
    calls return depends on the pool.  When the rows have a height and
    the pool has a slot for every iteration of the render pass, both
    calls complete and [deleteData] returns [[x]].  When an attached
    engine has fewer slots than [visibleCount], both calls edit the
    buffer and then throw [TypeError] from their render pass, so that
    [deleteData] returns nothing. *)
Theorem insertData_deleteData_round_trip x s :
  let s1 := state_after (insertData [x] (Some 0)) s in
  let s2 := state_after (deleteData 0 (Some 1)) s1 in
  sourceList s1 = x :: sourceList s
  /\ length (sourceList s1) = S (length (sourceList s))
  /\ sourceList s2 = sourceList s
  /\ length (sourceList s2) = length (sourceList s)
  /\ (pool_ready s ->
      completion (insertData [x] (Some 0)) s = Normal tt
      /\ completion (deleteData 0 (Some 1)) s1 = Normal [x])
  /\ (attached s -> 0 < itemHeight (options s) ->
      slot_count s < visibleCount s ->
      completion (insertData [x] (Some 0)) s = Throw TypeError
      /\ completion (deleteData 0 (Some 1)) s1 = Throw TypeError).
Proof.
  intros s1 s2.
  assert (sourceList s1 = x :: sourceList s) as H1.
  { subst s1. rewrite sourceList_insertData.
    assert (insert_position (Z.of_nat (length (sourceList s))) (Some 0) = 0)
      as ->.
    { unfold insert_position.
      destruct (Z.ltb_spec (Z.of_nat (length (sourceList s))) 0); [lia | done]. }
    rewrite splice_insert by lia. done. }
  assert (sourceList s2 = sourceList s) as H2.
  { subst s2. rewrite sourceList_deleteData, H1. simpl default.
    by rewrite splice_head. }
  assert (render_outcome s1 = render_outcome s) as Hout.
  { subst s1. unfold state_after. rewrite insertData_unfold.
    destruct (_renderList_frame
      (stretched
         (set_sourceList
            (snd (splice (sourceList s)
                    (insert_position (Z.of_nat (length (sourceList s))) (Some 0))
                    0 [x])) s))) as (_ & Ho & Hc & _).
    unfold state_after in Ho, Hc.
    unfold render_outcome, visibleCount, slot_count. by rewrite Ho, Hc. }
  split; [done |]. split; [by rewrite H1 |].
  split; [done |]. split; [by rewrite H2 |].
  rewrite completion_insertData, completion_deleteData_outcome, Hout, H1.
  simpl default. rewrite splice_head. split.
  - intros Hready. by rewrite render_outcome_ready.
  - intros Hatt _ Hlt. pose proof (slot_count_nonneg s Hatt).
    by rewrite render_outcome_short by lia.
Qed.

End BufferClaims.

Lemma insertData_deleteData_round_trip_witness :
  pool_ready Sample.mounted
  /\ completion (deleteData 0 (Some 1))
       (state_after (insertData [7] (Some 0)) Sample.mounted)
     = Normal [7].
Proof.
  assert (pool_ready Sample.mounted) as Hready by (by vm_compute).
  split; [exact Hready |].
  exact (proj2 (proj1 (proj2 (proj2 (proj2 (proj2
    (insertData_deleteData_round_trip 7 Sample.mounted))))) Hready)).
Defined.

(** C8 as stated fails on an engine that has just been constructed: its
    pool has no slot while five rows are visible.  [insertData([7], 0)]
    puts 7 into the buffer and throws from its render pass;
    [deleteData(0, 1)] right after takes 7 out again and throws as well,
    so it does not return [[7]]. *)
Lemma insertData_deleteData_round_trip_counterexample :
  let s := Sample.fresh in
  let s1 := state_after (insertData [7] (Some 0)) s in
  let s2 := state_after (deleteData 0 (Some 1)) s1 in
  sourceList s = [] /\ slot_count s = 0 /\ visibleCount s = 5
  /\ completion (insertData [7] (Some 0)) s = Throw TypeError
  /\ sourceList s1 = [7]
  /\ completion (deleteData 0 (Some 1)) s1 = Throw TypeError
  /\ completion (deleteData 0 (Some 1)) s1 <> Normal [7]
  /\ sourceList s2 = [].
Proof.
  intros s s1 s2.
  assert (completion (deleteData 0 (Some 1)) s1 = Throw TypeError) as Hc
    by (vm_compute; reflexivity).
  split; [vm_compute; reflexivity |]. split; [vm_compute; reflexivity |].
  split; [vm_compute; reflexivity |]. split; [vm_compute; reflexivity |].
  split; [vm_compute; reflexivity |]. split; [exact Hc |].
  split; [rewrite Hc; discriminate | vm_compute; reflexivity].
Qed.

Section DeleteClaims.

Context {T : Type} `{Truthy T}.
Implicit Types (s : ListView T).

(** C6, amended.  [deleteData(index, count)] removes from the buffer the
    [min (max count 0) (length - start)] elements from position [start]
    on, where [start] is [index] for an index inside the buffer, the
    length for an index beyond it, and [max (length + index) 0] for a
    negative index, which counts from the end; the buffer keeps what was
    before and after them.  The call returns exactly the removed elements;
    it completes when the pool has a slot for every iteration of the
    render pass.  Nothing is removed when [index] is at or beyond the
    length.  [deleteData(3, 100)] on ten items removes the items 3..9 and
    leaves the first three. *)
Theorem deleteData_removed index count s :
  let l := sourceList s in
  let len := Z.of_nat (length l) in
  let start := Z.to_nat (relative len index) in
  let removed :=
    take (Z.to_nat (Z.min (Z.max (default 1 count) 0) (len - Z.of_nat start)))
      (drop start l) in
  let s' := state_after (deleteData index count) s in
  l = take start l ++ removed ++ drop (start + length removed) l
  /\ sourceList s' = take start l ++ drop (start + length removed) l
  /\ Z.of_nat (length removed) <= Z.max (default 1 count) 0
  /\ (pool_ready s -> completion (deleteData index count) s = Normal removed)
  /\ (0 <= index <= len -> Z.of_nat start = index)
  /\ (len <= index -> removed = [] /\ sourceList s' = l)
  /\ (index < 0 -> Z.of_nat start = Z.max (len + index) 0)
  /\ (len = 10 -> index = 3 -> count = Some 100 ->
      removed = drop 3 l /\ length removed = 7%nat /\ sourceList s' = take 3 l
      /\ length (sourceList s') = 3%nat).
Proof.
  intros l len start removed s'.
  assert (0 <= relative len index <= len) as Hk
    by (unfold relative; destruct (Z.ltb_spec index 0); lia).
  assert (removed = fst (splice l index (default 1 count) [])) as Hrem.
  { unfold removed, splice. simpl. fold len. unfold start.
    by rewrite Z2Nat.id by lia. }
  destruct (splice_removed l index (default 1 count) []) as (Hl & Hrest & Hlen).
  fold len in Hl, Hrest, Hlen. fold start in Hl, Hrest, Hlen.
  rewrite <- Hrem in Hl, Hrest, Hlen.
  assert (sourceList s' = take start l ++ drop (start + length removed) l)
    as Hs' by (subst s'; by rewrite sourceList_deleteData).
  assert (0 <= index <= len -> Z.of_nat start = index) as Hin.
  { intros ?. subst start. unfold relative.
    destruct (Z.ltb_spec index 0); lia. }
  assert (len <= index -> Z.of_nat start = len) as Hbeyond.
  { intros ?. subst start. unfold relative.
    destruct (Z.ltb_spec index 0); lia. }
  assert (index < 0 -> Z.of_nat start = Z.max (len + index) 0) as Hneg.
  { intros ?. subst start. unfold relative.
    destruct (Z.ltb_spec index 0); lia. }
  split; [done |]. split; [done |]. split; [lia |].
  split; [intros Hready; by rewrite completion_deleteData, Hrem |].
  split; [done |]. split; [| split; [done |]].
  - intros Hge. assert (removed = []) as Hnil
      by (apply nil_length_inv; specialize (Hbeyond Hge); lia).
    split; [done |]. rewrite Hs', Hnil. simpl.
    by rewrite Nat.add_0_r, take_drop.
  - intros H10 -> ->. simpl in Hlen.
    assert (start = 3%nat) as Hs by lia.
    assert (length removed = 7%nat) as Hr by lia.
    assert (length l = 10%nat) as Hl10 by lia.
    rewrite Hs' in *. rewrite Hs, Hr in *.
    rewrite (drop_ge l (3 + 7)), app_nil_r in * by lia.
    assert (removed = drop 3 l) as Hd.
    { rewrite <- (take_drop 3 l) in Hl at 1. by apply app_inv_head in Hl. }
    split; [done |]. split; [done |]. split; [done |].
    rewrite length_take. lia.
Qed.

End DeleteClaims.

Lemma deleteData_removed_witness :
  pool_ready Sample.short
  /\ completion (deleteData 1 (Some 5)) Sample.short = Normal [20; 30].
Proof.
  assert (pool_ready Sample.short) as Hready by (by vm_compute).
  split; [exact Hready |].
  exact (proj1 (proj2 (proj2 (proj2
    (deleteData_removed 1 (Some 5) Sample.short)))) Hready).
Defined.

(** C6 as stated fails for a negative index, which is outside the buffer's
    range: [deleteData(-1, 1)] on the buffer [10, 20, 30] does not return
    an empty array; it removes and returns the last element. *)
Lemma deleteData_negative_index_counterexample :
  sourceList Sample.short = [10; 20; 30]
  /\ completion (deleteData (-1) (Some 1)) Sample.short = Normal [30]
  /\ sourceList (state_after (deleteData (-1) (Some 1)) Sample.short) = [10; 20]
  /\ ~ (completion (deleteData (-1) (Some 1)) Sample.short = Normal []).
Proof. by vm_compute. Qed.

(** ** Scrolling and single-item updates *)

Section Scroll.

Context {T : Type} `{Truthy T}.
Implicit Types (s : ListView T) (i : Z).

Lemma count_events_none (p : Event T -> bool) (evs : list (Event T)) :
  Forall (fun e => p e = false) evs -> count_events p evs = 0%nat.
Proof.
  unfold count_events. induction 1 as [| e evs He _ IH]; [done |].
  simpl. by rewrite He.
Qed.

Lemma count_renderList_window s ran :
  count_events is_renderList (events_since s (rendered s ran)) = 1%nat
  /\ count_events is_stretchList (events_since s (rendered s ran)) = 0%nat.
Proof.
  rewrite events_since_rendered.
  assert (forall p : Event T -> bool,
            (forall node data k, p (Call_renderHandler node data k) = false) ->
            count_events p (window_calls s ran) = 0%nat) as Hnone.
  { intros p Hp. apply count_events_none.
    eapply Forall_impl; [apply window_calls_renderHandler |].
    intros [] He; try discriminate. apply Hp. }
  split.
  - unfold count_events. simpl. f_equal. by apply Hnone.
  - unfold count_events. simpl. by apply Hnone.
Qed.

(** The sentinel is the first child, so it is the node of no slot. *)
Lemma runway_not_slot s i :
  attached s -> 0 <= i -> slot_node s i <> Some (runway s).
Proof.
  intros (Hr & Hnd & _) Hi Hc. unfold slot_node in Hc.
  apply index_Some in Hc as [_ Hc].
  pose proof (NoDup_lookup _ _ _ _ Hnd Hr Hc).
  unfold RUNWAY_COUNT in *. lia.
Qed.

Lemma dom_runway_rendered s ran :
  attached s -> ran `prefix_of` seqZ 0 (visibleCount s) ->
  dom (rendered s ran) !! runway s = dom s !! runway s.
Proof.
  intros Hatt Hpre. unfold rendered. simpl.
  apply paint_slots_other, Forall_forall. intros i Hi.
  apply runway_not_slot; [done |].
  apply (elem_of_prefix _ _ _ Hi) in Hpre.
  apply elem_of_seqZ in Hpre. lia.
Qed.

(** C3. [onScroll] ignores a scroll offset that is negative or that puts
    the cached viewport height beyond the extent of the buffer: the state
    is left as it is, so no render pass runs and no node is written.
    Any other offset runs [_renderList] once and never [_stretchList];
    the translation of the sentinel stays as it was. *)
Theorem onScroll_guard offset s :
  let viewport := virtualContainerHeight (cachedValue s) in
  let extent := Z.of_nat (length (sourceList s)) * itemHeight (options s) in
  let s0 := set_scrollTop offset s in
  let s' := state_after (scroll_signal offset) s in
  (offset < 0 \/ extent < offset + viewport ->
   scroll_signal offset s = (Normal tt, s0))
  /\ (0 <= offset /\ offset + viewport <= extent ->
      scroll_signal offset s = _renderList s0
      /\ count_events is_renderList (events_since s s') = 1%nat
      /\ count_events is_stretchList (events_since s s') = 0%nat
      /\ (attached s -> position_of s' (runway s') = position_of s (runway s))).
Proof.
  intros viewport extent s0 s'.
  assert (scroll_signal offset s
          = if (offset <? 0) || (extent <? offset + viewport)
            then (Normal tt, s0) else _renderList s0) as Hrun.
  { unfold scroll_signal, onScroll, op_bind, modify, gets. simpl.
    fold viewport. unfold actualContainerHeight. simpl. fold extent.
    by destruct ((offset <? 0) || (extent <? offset + viewport)). }
  split.
  - intros Hout. rewrite Hrun.
    destruct (Z.ltb_spec offset 0), (Z.ltb_spec extent (offset + viewport));
      simpl; try done; lia.
  - intros [Hlo Hhi].
    assert (scroll_signal offset s = _renderList s0) as Heq.
    { rewrite Hrun.
      destruct (Z.ltb_spec offset 0), (Z.ltb_spec extent (offset + viewport));
        simpl; try done; lia. }
    split; [done |]. subst s'. unfold state_after. rewrite Heq.
    destruct (_renderList_rendered s0) as (ran & Hpre & Hst & _).
    unfold state_after in Hst. rewrite Hst.
    change (events_since s (rendered s0 ran))
      with (events_since s0 (rendered s0 ran)).
    destruct (count_renderList_window s0 ran) as [-> ->].
    split; [done |]. split; [done |].
    intros Hatt. unfold position_of.
    change (runway (rendered s0 ran)) with (runway s0).
    rewrite dom_runway_rendered; done.
Qed.

(** What [renderItem] hands to the binder. *)
Lemma renderItem_call data index s :
  renderItem data index s
  = (Normal tt,
     set_trace
       (trace s
        ++ [Call_renderHandler (slot_node s (index - startIndex s)) data
              (index - startIndex s + RUNWAY_COUNT)]) s).
Proof. reflexivity. Qed.

End Scroll.

Lemma onScroll_guard_witness :
  scroll_signal (-5) Sample.mounted
  = (Normal tt, set_scrollTop (-5) Sample.mounted)
  /\ scroll_signal 240 Sample.mounted
     = _renderList (set_scrollTop 240 Sample.mounted).
Proof.
  split.
  - apply (proj1 (onScroll_guard (-5) Sample.mounted)). left. lia.
  - apply (proj2 (onScroll_guard 240 Sample.mounted)). by vm_compute.
Defined.

(** C2 at a failing input.  The engine shows the items 10..14 after a
    scroll to offset 240, and slot 2 (node 3) shows logical index 12.
    [renderItem(data, 12)] calls the binder on that node, but with the
    position of the node among the children, 3, as the index. *)
Theorem renderItem_passes_child_position :
  startIndex Sample.scrolled = 10
  /\ slot_node Sample.scrolled 2 = Some 3%nat
  /\ tag_of Sample.scrolled 3%nat = Some 12
  /\ events_since Sample.scrolled
       (state_after (renderItem 999 12) Sample.scrolled)
     = [Call_renderHandler (Some 3%nat) 999 3]
  /\ dom (state_after (renderItem 999 12) Sample.scrolled) = dom Sample.scrolled.
Proof. by vm_compute. Qed.

(** ** The window after a render pass *)

Section WindowFacts.

Context {T : Type} `{Truthy T}.
Implicit Types (s : ListView T) (i k : Z) (c : NodeId).

Lemma render_pass_ready s :
  pool_ready s ->
  completion _renderList s = Normal tt
  /\ state_after _renderList s = rendered s (seqZ 0 (visibleCount s)).
Proof.
  intros Hready.
  destruct (_renderList_rendered s) as (ran & _ & Hst & Hall).
  destruct (Hall Hready) as [Hc ->]. done.
Qed.

Lemma slot_node_child s i c :
  slot_node s i = Some c -> c ∈ children (container s).
Proof.
  unfold slot_node. intros [_ Hc]%index_Some.
  by apply list_elem_of_lookup_2 in Hc.
Qed.

Lemma attached_dom s c :
  attached s -> c ∈ children (container s) -> is_Some (dom s !! c).
Proof.
  intros (_ & _ & Hall) Hc.
  by apply (proj1 (Forall_forall _ _) Hall) in Hc as [? _].
Qed.

(** A slot of the window holds the writes of its own iteration. *)
Lemma rendered_slot s i c :
  attached s -> 0 <= i < visibleCount s -> slot_node s i = Some c ->
  dom (rendered s (seqZ 0 (visibleCount s))) !! c
  = painted_element s i <$> dom s !! c.
Proof.
  intros (_ & Hnd & _) Hi Hc. unfold rendered. simpl.
  apply (paint_slots_at s _ _ i); [done | apply NoDup_seqZ | | done].
  apply elem_of_seqZ. lia.
Qed.

(** A slot beyond the window is not written. *)
Lemma rendered_beyond s i c :
  attached s -> visibleCount s <= i -> slot_node s i = Some c ->
  dom (rendered s (seqZ 0 (visibleCount s))) !! c = dom s !! c.
Proof.
  intros (_ & Hnd & _) Hi Hc. unfold rendered. simpl.
  apply paint_slots_other, Forall_forall. intros j Hj Hjc.
  apply elem_of_seqZ in Hj.
  pose proof (slot_node_inj s i j c Hnd Hc Hjc). lia.
Qed.

Lemma position_rendered_slot s i c :
  attached s -> 0 <= i < visibleCount s -> slot_node s i = Some c ->
  position_of (rendered s (seqZ 0 (visibleCount s))) c = Some (0, slot_y s i).
Proof.
  intros Hatt Hi Hc. unfold position_of. rewrite (rendered_slot s i) by done.
  destruct (attached_dom s c Hatt (slot_node_child s i c Hc)) as [e ->].
  unfold painted_element. by destruct (slot_bound s i).
Qed.

Lemma tag_rendered_slot s i c :
  attached s -> 0 <= i < visibleCount s -> slot_node s i = Some c ->
  tag_of (rendered s (seqZ 0 (visibleCount s))) c
  = match slot_bound s i with
    | Some _ => Some (i + startIndex s)
    | None => tag_of s c
    end.
Proof.
  intros Hatt Hi Hc. unfold tag_of. rewrite (rendered_slot s i) by done.
  destruct (attached_dom s c Hatt (slot_node_child s i c Hc)) as [e ->].
  unfold painted_element. by destruct (slot_bound s i).
Qed.

(** The calls of a complete pass, by node and by data index. *)
Lemma elem_of_bound_nodes (evs : list (Event T)) c :
  c ∈ bound_nodes evs <->
  exists data k, Call_renderHandler (Some c) data k ∈ evs.
Proof.
  unfold bound_nodes. rewrite list_elem_of_omap. split.
  - intros (e & He & Hc). destruct e; try discriminate.
    simpl in Hc. subst. eauto.
  - intros (data & k & He). eauto.
Qed.

Lemma rendered_call s (e : Event T) :
  e ∈ events_since s (rendered s (seqZ 0 (visibleCount s))) <->
  e = Call_renderList
  \/ exists i c data,
       0 <= i < visibleCount s /\ slot_node s i = Some c
       /\ slot_bound s i = Some data
       /\ e = Call_renderHandler (Some c) data (i + startIndex s).
Proof.
  rewrite events_since_rendered, elem_of_cons, elem_of_window_calls.
  split; (intros [-> | (i & c & data & Hi & Hrest)]; [by left | right]);
    exists i, c, data; (split; [| done]).
  - apply elem_of_seqZ in Hi. lia.
  - apply elem_of_seqZ. lia.
Qed.

Lemma rendered_bound_node s i c :
  attached s -> slot_node s i = Some c ->
  c ∈ bound_nodes (events_since s (rendered s (seqZ 0 (visibleCount s)))) <->
  0 <= i < visibleCount s /\ is_Some (slot_bound s i).
Proof.
  intros (_ & Hnd & _) Hc. rewrite elem_of_bound_nodes. split.
  - intros (data & k & [He | (j & c' & data' & Hj & Hjc & Hb & He)]%rendered_call);
      [discriminate |].
    injection He as <- <- ->.
    rewrite (slot_node_inj s i j c Hnd Hc Hjc). eauto.
  - intros [Hi [data Hb]]. exists data, (i + startIndex s).
    apply rendered_call. right. by exists i, c, data.
Qed.

(** With a ready pool and the scroll offset at or after the top, the
    pass binds exactly the truthy items of the window. *)
Lemma rendered_bound_index s k :
  0 < itemHeight (options s) -> 0 <= scrollTop (container s) ->
  pool_ready s ->
  k ∈ bound_indices (events_since s (rendered s (seqZ 0 (visibleCount s)))) <->
  startIndex s <= k < startIndex s + visibleCount s
  /\ exists data, sourceList s !! Z.to_nat k = Some data /\ truthy data = true.
Proof.
  intros Hh Htop Hready. rewrite elem_of_bound_indices. split.
  - intros (node & data & [He | (i & c & data' & Hi & Hc & Hb & He)]%rendered_call);
      [discriminate |].
    injection He as -> -> ->. split; [lia |].
    rewrite slot_bound_source in Hb by done.
    replace (i + startIndex s) with (startIndex s + i) by lia.
    destruct (sourceList s !! Z.to_nat (startIndex s + i)) as [d |];
      [| discriminate].
    destruct (truthy d) eqn:Ht; [| discriminate].
    injection Hb as ->. eauto.
  - intros [Hk (data & Hd & Ht)].
    set (i := k - startIndex s).
    assert (is_Some (slot_node s i)) as [c Hc].
    { apply index_is_Some.
      unfold pool_ready, slot_count, RUNWAY_COUNT in *. lia. }
    exists (Some c), data. apply rendered_call. right.
    exists i, c, data. split; [lia |]. split; [done |]. split.
    + rewrite slot_bound_source by (done || lia).
      replace (startIndex s + i) with k by lia. by rewrite Hd, Ht.
    + f_equal. lia.
Qed.

End WindowFacts.

Section RenderClaims.

Context {T : Type} `{Truthy T}.
Implicit Types (s : ListView T) (i k : Z) (c : NodeId).

Lemma slot_y_mod s i :
  0 < itemHeight (options s) -> 0 <= scrollTop (container s) ->
  slot_y s i
  = scrollTop (container s) + i * itemHeight (options s)
    - scrollTop (container s) `mod` itemHeight (options s).
Proof.
  intros Hh Htop. unfold slot_y, rem. by rewrite Z.rem_mod_nonneg by lia.
Qed.

(** C1, amended.  Let the rows have a positive height, let the pool hold
    at least [visibleCount] slots, each a node of its own, and let the
    scroll offset be at or after the top.
    A render pass then completes, and
    - the data indices it binds are exactly those of
      [[startIndex, startIndex + visibleCount)] that lie in the buffer and
      whose item is truthy;
    - every slot [i < visibleCount] is positioned at
      [scrollTop + i * itemHeight - scrollTop mod itemHeight]; it is tagged
      with [startIndex + i] and handed to the binder with the item and that
      index when the item exists and is truthy, and otherwise keeps its
      tag and is not handed to the binder;
    - a slot at [i >= visibleCount] is neither written nor bound. *)
Theorem render_pass_window s :
  0 <= scrollTop (container s) -> attached s -> pool_ready s ->
  let s' := state_after _renderList s in
  let first := startIndex s in
  let n := visibleCount s in
  let N := Z.of_nat (length (sourceList s)) in
  completion _renderList s = Normal tt
  /\ (forall k,
        k ∈ bound_indices (events_since s s') <->
        first <= k < first + n /\ 0 <= k < N
        /\ exists data,
             sourceList s !! Z.to_nat k = Some data /\ truthy data = true)
  /\ (forall i c,
        slot_node s i = Some c -> 0 <= i < n ->
        position_of s' c
        = Some (0, scrollTop (container s) + i * itemHeight (options s)
                   - scrollTop (container s) `mod` itemHeight (options s))
        /\ match sourceList s !! Z.to_nat (first + i) with
           | Some data =>
               if truthy data
               then tag_of s' c = Some (first + i)
                    /\ Call_renderHandler (Some c) data (first + i)
                         ∈ events_since s s'
               else tag_of s' c = tag_of s c
                    /\ c ∉ bound_nodes (events_since s s')
           | None =>
               tag_of s' c = tag_of s c
               /\ c ∉ bound_nodes (events_since s s')
           end)
  /\ (forall i c,
        slot_node s i = Some c -> n <= i ->
        dom s' !! c = dom s !! c /\ c ∉ bound_nodes (events_since s s')).
Proof.
  intros Htop Hatt Hready s' first n N.
  pose proof (proj1 Hready) as Hh.
  destruct (render_pass_ready s Hready) as [Hc Hst].
  subst s'. rewrite Hst. fold n.
  split; [done |]. split; [| split].
  - intros k. subst n. rewrite rendered_bound_index by done. fold first.
    split; [| tauto]. intros [Hk (data & Hd & Ht)].
    split; [done |]. split; [| eauto].
    pose proof (startIndex_nonneg s Hh Htop).
    apply lookup_lt_Some in Hd. subst N first. lia.
  - intros i c Hnode Hi. subst n.
    rewrite (position_rendered_slot s i), (tag_rendered_slot s i), slot_y_mod
      by done.
    split; [done |].
    pose proof (rendered_bound_node s i c Hatt Hnode) as Hbn.
    rewrite slot_bound_source in * by done. fold first in Hbn |- *.
    destruct (sourceList s !! Z.to_nat (first + i)) as [data |] eqn:Hd.
    + destruct (truthy data) eqn:Ht.
      * split; [f_equal; lia |]. apply rendered_call. right.
        exists i, c, data. split; [done |]. split; [done |].
        split; [| f_equal; lia].
        rewrite slot_bound_source by done. fold first. by rewrite Hd, Ht.
      * split; [done |]. rewrite Hbn. intros [_ [? ?]]. discriminate.
    + split; [done |]. rewrite Hbn. intros [_ [? ?]]. discriminate.
  - intros i c Hnode Hi. subst n. split; [by apply (rendered_beyond s i) |].
    rewrite (rendered_bound_node s i c) by done. lia.
Qed.

(** C10, amended.  Take a render pass that starts at a scroll offset at
    or after the top, over a pool that has a slot for every visible row.
    A slot of the window whose item is in the buffer but falsy is
    positioned and nothing more: its tag stays, the binder is not called
    on it, and its data index, which lies in [[0, length)], is not among
    the bound ones.  The bound indices are exactly the indices of the
    window that lie in [[0, length)] and whose item is truthy. *)
Theorem render_pass_skips_falsy s i c data :
  0 <= scrollTop (container s) -> attached s -> pool_ready s ->
  0 <= i < visibleCount s -> slot_node s i = Some c ->
  sourceList s !! Z.to_nat (startIndex s + i) = Some data ->
  truthy data = false ->
  let s' := state_after _renderList s in
  0 <= startIndex s + i < Z.of_nat (length (sourceList s))
  /\ position_of s' c = Some (0, slot_y s i)
  /\ tag_of s' c = tag_of s c
  /\ (c ∉ bound_nodes (events_since s s'))
  /\ (startIndex s + i ∉ bound_indices (events_since s s'))
  /\ (forall k,
        k ∈ bound_indices (events_since s s') <->
        startIndex s <= k < startIndex s + visibleCount s
        /\ 0 <= k < Z.of_nat (length (sourceList s))
        /\ exists d, sourceList s !! Z.to_nat k = Some d /\ truthy d = true).
Proof.
  intros Htop Hatt Hready Hi Hnode Hd Hf s'.
  pose proof (proj1 Hready) as Hh.
  destruct (render_pass_ready s Hready) as [_ Hst].
  subst s'. rewrite Hst.
  assert (slot_bound s i = None) as Hb.
  { rewrite slot_bound_source by done. by rewrite Hd, Hf. }
  pose proof (startIndex_nonneg s Hh Htop).
  split; [apply lookup_lt_Some in Hd; lia |].
  split; [by apply (position_rendered_slot s i) |].
  split; [by rewrite (tag_rendered_slot s i), Hb |].
  split; [rewrite (rendered_bound_node s i c) by done;
          rewrite Hb; by intros [_ [? ?]] |].
  split.
  - rewrite rendered_bound_index by done. intros [_ (d & Hd' & Ht)].
    congruence.
  - intros k. rewrite rendered_bound_index by done.
    split; [| tauto]. intros [Hk (d & Hd' & Ht)].
    split; [done |]. split; [| eauto].
    apply lookup_lt_Some in Hd'. lia.
Qed.

End RenderClaims.

Lemma render_pass_window_witness :
  attached Sample.scrolled /\ pool_ready Sample.scrolled
  /\ completion _renderList Sample.scrolled = Normal tt.
Proof.
  assert (attached Sample.scrolled) as Hatt
    by (apply (bool_decide_unpack _); by vm_compute).
  assert (pool_ready Sample.scrolled) as Hready by (by vm_compute).
  split; [exact Hatt |]. split; [exact Hready |].
  assert (0 <= scrollTop (container Sample.scrolled)) as Htop
    by (by vm_compute).
  exact (proj1 (render_pass_window Sample.scrolled Htop Hatt Hready)).
Defined.

(** C1 as stated fails on an engine whose pool holds three slots while
    two are visible, over the buffer [5, 0, 8, 9] scrolled to offset 24
    (a valid offset: 24 <= 4 * 24 - 48).  The claim gives the bound
    indices [1, 4) and puts slot 2 at offset 72.  The pass binds index 2
    only: the item at index 1 is the number 0, and the third slot is
    outside the loop, so it stays where it was and index 3 is not bound. *)
Lemma render_pass_window_counterexample :
  let s := Sample.shrunk_scrolled in
  let s' := state_after _renderList s in
  slot_count s = 3 /\ visibleCount s = 2
  /\ sourceList s = [5; 0; 8; 9]
  /\ 0 <= scrollTop (container s)
  /\ scrollTop (container s)
     <= (Z.of_nat (length (sourceList s)) * itemHeight (options s)
         - container_clientHeight (container s))
  /\ bound_indices (events_since s s') = [2]
  /\ ~ (forall k,
          k ∈ bound_indices (events_since s s') <->
          startIndex s <= k < startIndex s + slot_count s
          /\ 0 <= k < Z.of_nat (length (sourceList s)))
  /\ slot_node s 2 = Some 3%nat
  /\ position_of s' 3%nat = Some (0, 48)
  /\ scrollTop (container s) + 2 * itemHeight (options s)
     - scrollTop (container s) `mod` itemHeight (options s) = 72.
Proof.
  intros s s'.
  assert (startIndex s = 1) as Hfirst by (vm_compute; reflexivity).
  assert (slot_count s = 3) as Hpool by (vm_compute; reflexivity).
  assert (length (sourceList s) = 4%nat) as Hlen by (vm_compute; reflexivity).
  assert (bound_indices (events_since s s') = [2]) as Hb
    by (vm_compute; reflexivity).
  split; [exact Hpool |]. split; [vm_compute; reflexivity |].
  split; [vm_compute; reflexivity |].
  split; [vm_compute; discriminate |]. split; [vm_compute; discriminate |].
  split; [exact Hb |].
  split; [| split; [| split]; vm_compute; reflexivity].
  rewrite Hb, Hfirst, Hpool, Hlen. intros Hall.
  assert (3 ∈ [2]) as Hin by (apply (proj2 (Hall 3)); lia).
  apply list_elem_of_singleton in Hin. discriminate.
Qed.

Lemma render_pass_skips_falsy_witness :
  attached Sample.sparse /\ pool_ready Sample.sparse
  /\ tag_of (state_after _renderList Sample.sparse) 2%nat
     = tag_of Sample.sparse 2%nat.
Proof.
  assert (attached Sample.sparse) as Hatt
    by (apply (bool_decide_unpack _); by vm_compute).
  assert (pool_ready Sample.sparse) as Hready by (by vm_compute).
  split; [exact Hatt |]. split; [exact Hready |].
  assert (0 <= scrollTop (container Sample.sparse)) as Htop by (by vm_compute).
  assert (0 <= 1 < visibleCount Sample.sparse) as Hi by (by vm_compute).
  assert (slot_node Sample.sparse 1 = Some 2%nat) as Hnode by (by vm_compute).
  assert (sourceList Sample.sparse !! Z.to_nat (startIndex Sample.sparse + 1)
          = Some 0) as Hd by (by vm_compute).
  assert (truthy 0 = false) as Hf by reflexivity.
  exact (proj1 (proj2 (proj2
    (render_pass_skips_falsy Sample.sparse 1 2%nat 0
       Htop Hatt Hready Hi Hnode Hd Hf)))).
Defined.

(** C10 as stated, for every render pass, fails in two ways.
    - [doResize()] on an engine of five slots over the buffer
      [10, 20, 30] whose container is pulled to offset -30: the window
      starts at index -2, [slice(-2, 3)] counts its start from the end of
      the buffer and gives [20, 30], and the pass binds these two items
      with the indices -2 and -1, which are not in [[0, 3)]; the in-range
      indices 0, 1 and 2, all with truthy items, are not bound.
    - A pass over the buffer [5, 0, 8, 9] with five visible rows and a
      pool of three slots binds the indices 0 and 2 and then throws at
      the fourth slot: index 3 is in the window and in range, its item 9
      is truthy, and it is not bound. *)
Lemma render_pass_skips_falsy_counterexample :
  let s := Sample4.overscrolled in
  let s' := state_after _renderList s in
  let u := Sample2.taller in
  let u' := state_after _renderList u in
  sourceList s = [10; 20; 30] /\ scrollTop (container s) = -30
  /\ startIndex s = -2 /\ visibleCount s = 5 /\ slot_count s = 5
  /\ events_since s (state_after doResize s) = events_since s s'
  /\ completion _renderList s = Normal tt
  /\ bound_indices (events_since s s') = [-2; -1]
  /\ ~ (forall k,
          k ∈ bound_indices (events_since s s') <->
          startIndex s <= k < startIndex s + visibleCount s
          /\ 0 <= k < Z.of_nat (length (sourceList s))
          /\ exists d, sourceList s !! Z.to_nat k = Some d /\ truthy d = true)
  /\ sourceList u = [5; 0; 8; 9] /\ scrollTop (container u) = 0
  /\ startIndex u = 0 /\ visibleCount u = 5 /\ slot_count u = 3
  /\ completion _renderList u = Throw TypeError
  /\ bound_indices (events_since u u') = [0; 2]
  /\ ~ (forall k,
          k ∈ bound_indices (events_since u u') <->
          startIndex u <= k < startIndex u + visibleCount u
          /\ 0 <= k < Z.of_nat (length (sourceList u))
          /\ exists d, sourceList u !! Z.to_nat k = Some d /\ truthy d = true).
Proof.
  intros s s' u u'.
  assert (bound_indices (events_since s s') = [-2; -1]) as Hs
    by (vm_compute; reflexivity).
  assert (bound_indices (events_since u u') = [0; 2]) as Hu
    by (vm_compute; reflexivity).
  assert (startIndex u = 0) as Hfirst by (vm_compute; reflexivity).
  assert (visibleCount u = 5) as Hn by (vm_compute; reflexivity).
  assert (sourceList u = [5; 0; 8; 9]) as Hsrc by (vm_compute; reflexivity).
  split; [vm_compute; reflexivity |]. split; [vm_compute; reflexivity |].
  split; [vm_compute; reflexivity |]. split; [vm_compute; reflexivity |].
  split; [vm_compute; reflexivity |]. split; [vm_compute; reflexivity |].
  split; [vm_compute; reflexivity |]. split; [exact Hs |].
  split.
  { rewrite Hs. intros Hall.
    assert (-2 ∈ [-2; -1]) as Hin by (apply elem_of_cons; by left).
    apply (proj1 (Hall (-2))) in Hin. lia. }
  split; [exact Hsrc |]. split; [vm_compute; reflexivity |].
  split; [exact Hfirst |]. split; [exact Hn |].
  split; [vm_compute; reflexivity |]. split; [vm_compute; reflexivity |].
  split; [exact Hu |].
  rewrite Hu, Hfirst, Hn, Hsrc. intros Hall.
  assert (3 ∈ [0; 2]) as Hin.
  { apply (proj2 (Hall 3)). split; [lia |]. split; [simpl; lia |].
    exists 9. split; reflexivity. }
  apply elem_of_cons in Hin as [Hin | Hin]; [discriminate |].
  apply list_elem_of_singleton in Hin. discriminate.
Qed.

(** The render pass needs a node for each of its iterations: on an engine
    that has no slot yet it throws at the first one.  A mutation has
    edited the buffer and stretched the sentinel by then. *)
Lemma render_pass_throws_without_slots :
  slot_count Sample.fresh = 0 /\ visibleCount Sample.fresh = 5
  /\ completion _renderList Sample.fresh = Throw TypeError
  /\ completion (insertData [7] None) Sample.fresh = Throw TypeError
  /\ sourceList (state_after (insertData [7] None) Sample.fresh) = [7].
Proof. repeat split; vm_compute; reflexivity. Qed.

(** ** Rebuilding and growing the pool *)

Section Pool.

Context {T : Type} `{Truthy T}.
Implicit Types (s : ListView T) (c : NodeId) (d : gmap nat Element).

Lemma created_lookup nodes d c :
  created nodes d !! c
  = if decide (c ∈ nodes) then Some blank_element else d !! c.
Proof.
  unfold created. revert d.
  induction nodes as [| n nodes IH]; intros d; cbn [foldl].
  - destruct (decide (c ∈ [])) as [Hin | _];
      [by apply elem_of_nil in Hin | done].
  - rewrite IH, lookup_insert. clear IH.
    destruct (decide (c ∈ n :: nodes)) as [Hin' | Hin'];
      destruct (decide (c ∈ nodes)) as [Hin | Hin]; try done.
    + apply elem_of_cons in Hin' as [-> | ?]; [| done].
      by rewrite decide_True.
    + exfalso. apply Hin'. by right.
    + rewrite decide_False; [done |]. intros ->. apply Hin'. by left.
Qed.

Lemma created_snoc nodes node d :
  created (nodes ++ [node]) d = <[node := blank_element]> (created nodes d).
Proof. unfold created. by rewrite foldl_app. Qed.

(** The factory loop makes [count] nodes with the next identities. *)
Lemma create_nodes_run count s :
  let nodes := seq (next_node s) count in
  create_nodes count s
  = (Normal nodes,
     set_trace (trace s ++ map Call_createHandler nodes)
       (set_next_node (next_node s + count)%nat
          (set_dom (created nodes (dom s)) s))).
Proof.
  revert s. induction count as [| count IH]; intros s nodes; subst nodes.
  - simpl. destruct s; unfold set_trace, set_next_node, set_dom; simpl.
    by rewrite app_nil_r, Nat.add_0_r.
  - cbn [create_nodes]. unfold op_bind at 1.
    change (createHandler s)
      with (Normal (next_node s),
            set_trace (trace s ++ [Call_createHandler (next_node s)])
              (set_next_node (S (next_node s))
                 (set_dom (<[next_node s := blank_element]> (dom s)) s))).
    cbv beta iota. unfold op_bind at 1. rewrite IH.
    destruct s; unfold op_ret, set_trace, set_next_node, set_dom; simpl.
    by rewrite <- app_assoc, Nat.add_succ_r.
Qed.

(** The removal loop, started at the last child, keeps the first two
    children and removes the others from the last one down. *)
Lemma remove_children_down_run index s :
  length (children (container s)) = S index ->
  remove_children_down index s
  = (Normal tt,
     set_trace
       (trace s
        ++ map Call_removeChild (reverse (drop 2 (children (container s)))))
       (set_children (take 2 (children (container s))) s)).
Proof.
  revert s. induction index as [| index IH]; intros s Hlen.
  - simpl. destruct s as [? ? ? [? ? ch] ? ? ? ?]; simpl in *.
    unfold op_ret, set_trace, set_children, set_container; simpl.
    rewrite take_ge, drop_ge by lia. simpl. by rewrite app_nil_r.
  - cbn [remove_children_down].
    destruct (Z.ltb_spec RUNWAY_COUNT (Z.of_nat (S index))) as [Hgt | Hle].
    + destruct (lookup_lt_is_Some_2 (children (container s)) (S index))
        as [last Hlast]; [lia |].
      assert (children (container s)
              = take (S index) (children (container s)) ++ [last]) as Hsplit.
      { rewrite <- (take_drop (S index) (children (container s))) at 1.
        f_equal. rewrite (drop_S _ last (S index)) by done.
        f_equal. apply drop_ge. lia. }
      assert (delete (S index) (children (container s))
              = take (S index) (children (container s))) as Hdel.
      { rewrite delete_take_drop, (drop_ge _ (S (S index))) by lia.
        apply app_nil_r. }
      assert (reverse (drop 2 (children (container s)))
              = last :: reverse (drop 2 (take (S index) (children (container s)))))
        as Hrev.
      { rewrite Hsplit at 1.
        rewrite drop_app_le
          by (rewrite length_take; unfold RUNWAY_COUNT in *; lia).
        apply reverse_snoc. }
      assert (take 2 (take (S index) (children (container s)))
              = take 2 (children (container s))) as Htake.
      { rewrite take_take. f_equal. unfold RUNWAY_COUNT in *. lia. }
      cbv [removeChild_at op_bind gets]. rewrite Hlast.
      cbv [op_bind modify log]. rewrite IH.
      * rewrite Hrev.
        destruct s as [? ? ? [? ? ch] ? ? ? ?].
        unfold set_trace, set_children, set_container in *; simpl in *.
        rewrite Hdel, Htake. by rewrite <- app_assoc.
      * destruct s as [? ? ? [? ? ch] ? ? ? ?].
        unfold set_trace, set_children, set_container in *; simpl in *.
        rewrite length_delete by done. lia.
    + assert (index = 0%nat) as -> by (unfold RUNWAY_COUNT in *; lia).
      destruct s as [? ? ? [? ? ch] ? ? ? ?]; simpl in *.
      unfold op_ret, set_trace, set_children, set_container; simpl.
      rewrite take_ge, drop_ge by lia. simpl. by rewrite app_nil_r.
Qed.

End Pool.

Section Rebuild.

Context {T : Type} `{Truthy T}.
Implicit Types (s : ListView T) (c : NodeId).

Lemma bind_run {A B} (m : Op T A) (k : A -> Op T B) s a s' :
  m s = (Normal a, s') -> op_bind m k s = k a s'.
Proof. unfold op_bind. by intros ->. Qed.

Lemma virtualItemCount_run s :
  virtualItemCount s
  = (Normal (visibleCount s),
     set_cachedValue
       (mkCachedValue (runwayHeight (cachedValue s))
          (runwayWidth (cachedValue s)) (scrollbarWidth (cachedValue s))
          (container_clientHeight (container s))) s).
Proof. reflexivity. Qed.

Lemma ListView_ext (a b : ListView T) :
  sourceList a = sourceList b -> options a = options b ->
  cachedValue a = cachedValue b -> container a = container b ->
  runway a = runway b -> dom a = dom b -> next_node a = next_node b ->
  trace a = trace b -> a = b.
Proof. destruct a, b. simpl. by intros -> -> -> -> -> -> -> ->. Qed.

Lemma updateData_rebuilt items s :
  children (container s) <> [] ->
  updateData items s = _renderList (stretched (rebuilt items s)).
Proof.
  intros Hne.
  destruct s as [src [ih fixed] cache [vh top ch] rw dm nx tr].
  simpl in Hne. unfold updateData.
  assert (length ch = S (Z.to_nat (Z.of_nat (length ch) - 1))) as Hlen.
  { destruct ch; [done |]. simpl length. lia. }
  destruct fixed.
  all: repeat (erewrite bind_run by reflexivity).
  all: erewrite bind_run by (apply remove_children_down_run; exact Hlen).
  all: erewrite bind_run by apply virtualItemCount_run.
  all: erewrite bind_run by apply create_nodes_run.
  all: repeat (erewrite bind_run by reflexivity).
  all: unfold rebuilt.
  all: repeat match goal with
       | |- context [visibleCount ?x] =>
           change (visibleCount x) with (ceil_div vh ih + DSURPLUS_COUNT)
       end.
  all: generalize (ceil_div vh ih + DSURPLUS_COUNT); intros n.
  all: cbn -[_renderList _stretchList scrollTo reverse Z.of_nat Z.to_nat
             Z.leb stretched].
  all: destruct (Z.of_nat (length items) <=? n); unfold when.
  all: repeat (erewrite bind_run by reflexivity).
  all: erewrite bind_run by apply _stretchList_stretched.
  all: do 2 f_equal.
  all: apply ListView_ext; cbn -[reverse Z.of_nat Z.to_nat]; try reflexivity.
  all: by rewrite <- ?app_assoc.
Qed.

Lemma onResize_resized s :
  onResize s = _renderList (resized s).
Proof.
  destruct s as [src [ih fixed] cache [vh top ch] rw dm nx tr].
  unfold onResize, resized.
  do 2 (erewrite bind_run by reflexivity).
  change (visibleCount _ - slot_count _)
    with (ceil_div vh ih + DSURPLUS_COUNT - (Z.of_nat (length ch) - RUNWAY_COUNT)).
  cbn [virtualContainerHeight cachedValue container_clientHeight container].
  destruct (Z.ltb_spec (virtualContainerHeight cache) vh) as [Hgrow | Hle];
    unfold when.
  - erewrite bind_run.
    2:{ do 2 (erewrite bind_run by reflexivity).
        erewrite bind_run by apply create_nodes_run.
        reflexivity. }
    destruct (Z.ltb_spec vh (virtualContainerHeight cache)); [lia |].
    erewrite bind_run by reflexivity.
    f_equal.
    apply ListView_ext; cbn -[Z.of_nat Z.to_nat Z.sub Z.add]; try reflexivity.
    by rewrite <- ?app_assoc.
  - erewrite bind_run by reflexivity.
    destruct (vh <? virtualContainerHeight cache);
      by erewrite bind_run by reflexivity.
Qed.

End Rebuild.

(** ** The sentinel and the order of the calls *)

Section Stretch.

Context {T : Type} `{Truthy T}.
Implicit Types (s u w : ListView T) (c : NodeId).

Lemma events_since_app s s' (evs : list (Event T)) :
  trace s' = trace s ++ evs -> events_since s s' = evs.
Proof. unfold events_since. intros ->. by rewrite drop_app_length. Qed.

Lemma count_events_app (p : Event T -> bool) (evs evs' : list (Event T)) :
  count_events p (evs ++ evs')
  = (count_events p evs + count_events p evs')%nat.
Proof. unfold count_events. by rewrite List.filter_app, length_app. Qed.

Lemma count_events_map {A} (p : Event T -> bool) (f : A -> Event T) (l : list A) :
  (forall a, p (f a) = false) -> count_events p (map f l) = 0%nat.
Proof.
  intros Hp. apply count_events_none, Forall_forall.
  intros e [a [<- _]]%list_elem_of_In%in_map_iff. apply Hp.
Qed.

Lemma count_events_window (p : Event T -> bool) w ran :
  (forall node data k, p (Call_renderHandler node data k) = false) ->
  count_events p (window_calls w ran) = 0%nat.
Proof.
  intros Hp. apply count_events_none.
  eapply Forall_impl; [apply window_calls_renderHandler |].
  intros [] He; try discriminate. apply Hp.
Qed.

(** A render pass does not write the sentinel. *)
Lemma render_keeps_runway u :
  attached u ->
  dom (state_after _renderList u) !! runway u = dom u !! runway u.
Proof.
  intros Hatt. destruct (_renderList_rendered u) as (ran & Hpre & -> & _).
  by apply dom_runway_rendered.
Qed.

Lemma render_trace u :
  exists ran,
    trace (state_after _renderList u)
    = trace u ++ Call_renderList :: window_calls u ran.
Proof.
  destruct (_renderList_rendered u) as (ran & _ & -> & _). by exists ran.
Qed.

Lemma attached_runway s : attached s -> is_Some (dom s !! runway s).
Proof.
  intros Hatt. apply attached_dom; [done |].
  destruct Hatt as (Hr & _). by apply list_elem_of_lookup_2 in Hr.
Qed.

(** Conditions that only look at the children, the sentinel field, the
    keys of the store and the supply of identities. *)
Lemma attached_ext s s' :
  children (container s') = children (container s) ->
  runway s' = runway s -> next_node s' = next_node s ->
  (forall c, is_Some (dom s !! c) -> is_Some (dom s' !! c)) ->
  attached s -> attached s'.
Proof.
  intros Hch Hr Hn Hd (H0 & Hnd & Hall). unfold attached.
  rewrite Hch, Hr, Hn. split; [done |]. split; [done |].
  eapply Forall_impl; [exact Hall |]. intros c [Hc ?]. by split; [apply Hd |].
Qed.

Lemma dom_stretched w c :
  dom (stretched w) !! c
  = if decide (runway w = c)
    then with_transform
           (0, actualContainerHeight w
               - clientHeight (default blank_element (dom w !! runway w)))
         <$> dom w !! c
    else dom w !! c.
Proof.
  unfold stretched, state_after. simpl. rewrite lookup_alter.
  by destruct (decide (runway w = c)) as [<- | ?].
Qed.

Lemma attached_stretched w : attached w -> attached (stretched w).
Proof.
  apply attached_ext; try done. intros c [e He]. rewrite dom_stretched, He.
  by destruct (decide (runway w = c)).
Qed.

(** After [_stretchList] and a render pass, with any events logged in
    between, the sentinel carries the translation of the stretch. *)
Lemma runway_after_stretch_render w u sentinel :
  attached w -> dom w !! runway w = Some sentinel ->
  children (container u) = children (container w) ->
  runway u = runway w -> next_node u = next_node w ->
  dom u = dom (stretched w) ->
  dom (state_after _renderList u) !! runway w
  = Some (with_transform
            (0, actualContainerHeight w - clientHeight sentinel) sentinel).
Proof.
  intros Hatt Hs Hch Hr Hn Hd.
  assert (attached u) as Hu.
  { apply (attached_ext (stretched w)); try done; [by rewrite Hd |].
    by apply attached_stretched. }
  rewrite <- Hr, render_keeps_runway, Hd, Hr, dom_stretched by done.
  by rewrite decide_True, Hs.
Qed.

Lemma attached_rebuilt items s : attached s -> attached (rebuilt items s).
Proof.
  intros (Hr & Hnd & Hall). unfold attached, rebuilt. simpl.
  set (nodes := seq (next_node s) (Z.to_nat (visibleCount s))).
  assert (forall c, c ∈ take 2 (children (container s)) ->
                    is_Some (dom s !! c) /\ (c < next_node s)%nat) as Hkept.
  { intros c Hc. apply (proj1 (Forall_forall _ _) Hall).
    by apply (subseteq_take 2 (children (container s))). }
  assert (forall c, c ∈ nodes <->
            (next_node s <= c < next_node s + Z.to_nat (visibleCount s))%nat)
    as Hnodes by (intros c; subst nodes; apply elem_of_seq).
  split; [| split].
  - apply lookup_app_l_Some. rewrite lookup_take_lt by lia. done.
  - apply NoDup_app. split; [| split].
    + eapply sublist_NoDup; [exact Hnd | apply sublist_take].
    + intros c Hc Hc'. apply Hkept in Hc as [_ Hc].
      apply Hnodes in Hc'. lia.
    + apply NoDup_seq.
  - apply Forall_app. split; apply Forall_forall; intros c Hc.
    + destruct (Hkept c Hc) as [[e He] Hlt].
      rewrite created_lookup. split; [| lia].
      by destruct (decide (c ∈ nodes)); [| rewrite He].
    + rewrite created_lookup, decide_True by done.
      apply Hnodes in Hc. split; [done | lia].
Qed.

Lemma dom_rebuilt_runway items s :
  attached s -> dom (rebuilt items s) !! runway s = dom s !! runway s.
Proof.
  intros (Hr & _ & Hall). unfold rebuilt. simpl.
  rewrite created_lookup, decide_False; [done |].
  intros [Hge _]%elem_of_seq.
  apply list_elem_of_lookup_2 in Hr.
  apply (proj1 (Forall_forall _ _) Hall) in Hr as [_ Hlt]. lia.
Qed.

End Stretch.

Section MutationClaims.

Context {T : Type} `{Truthy T}.
Implicit Types (s u w : ListView T) (c : NodeId).

Lemma attached_children s : attached s -> children (container s) <> [].
Proof. intros (Hr & _) Hnil. by rewrite Hnil in Hr. Qed.

(** The shape shared by the three mutations: a stretch of the edited
    state [w], possibly some events, and a render pass. *)
Lemma stretch_then_render w u sentinel (between : list (Event T)) :
  attached w -> dom w !! runway w = Some sentinel ->
  u = set_trace (trace (stretched w) ++ between) (stretched w) ->
  let s' := state_after _renderList u in
  sourceList s' = sourceList w /\ options s' = options w
  /\ runway s' = runway w
  /\ dom s' !! runway w
     = Some (with_transform
               (0, actualContainerHeight w - clientHeight sentinel) sentinel)
  /\ exists ran,
       trace s'
       = trace w ++ Call_stretchList :: between
         ++ Call_renderList :: window_calls u ran.
Proof.
  intros Hatt Hs -> s'. subst s'.
  set (u := set_trace _ _).
  destruct (_renderList_frame u) as (Hsrc & Hopt & _ & Hr & _).
  split; [by rewrite Hsrc |]. split; [by rewrite Hopt |].
  split; [by rewrite Hr |].
  split; [by apply (runway_after_stretch_render w u) |].
  destruct (render_trace u) as [ran ->]. exists ran.
  subst u. simpl. by rewrite <- !app_assoc.
Qed.

(** C4. After [insertData], [deleteData] and [updateData] on an attached
    engine, the sentinel is translated by
    [(0, length * itemHeight - sentinelSize)], so that its box ends at
    [length * itemHeight]; the call of [_stretchList] comes before the
    call of [_renderList], and each is called once. *)
Theorem mutation_restretches (m : Mutation T) s sentinel :
  attached s -> dom s !! runway s = Some sentinel ->
  let s' := state_after (mutate m) s in
  let extent := Z.of_nat (length (sourceList s')) * itemHeight (options s') in
  runway s' = runway s
  /\ dom s' !! runway s
     = Some (with_transform (0, extent - clientHeight sentinel) sentinel)
  /\ position_of s' (runway s') = Some (0, extent - clientHeight sentinel)
  /\ exists before between after,
       events_since s s'
       = before ++ Call_stretchList :: between ++ Call_renderList :: after
       /\ count_events is_renderList (before ++ between ++ after) = 0%nat
       /\ count_events is_stretchList (before ++ between ++ after) = 0%nat.
Proof.
  intros Hatt Hs s'.
  assert (exists w before between u,
            attached w /\ dom w !! runway w = Some sentinel
            /\ runway w = runway s
            /\ trace w = trace s ++ before
            /\ u = set_trace (trace (stretched w) ++ between) (stretched w)
            /\ s' = state_after _renderList u
            /\ count_events is_renderList (before ++ between) = 0%nat
            /\ count_events is_stretchList (before ++ between) = 0%nat)
    as (w & before & between & u & Hw & Hws & Hwr & Hwt & Hu & Hs' & Hc1 & Hc2).
  { destruct m as [items index | index count | items]; subst s'.
    - set (w := set_sourceList
                  (snd (splice (sourceList s)
                          (insert_position (Z.of_nat (length (sourceList s))) index)
                          0 items)) s).
      exists w, [], [], (stretched w).
      split; [by apply (attached_ext s) |]. split; [done |]. split; [done |].
      split; [by rewrite app_nil_r |].
      split; [by destruct (stretched w); unfold set_trace; simpl;
                 rewrite app_nil_r |].
      split; [| done]. unfold state_after, mutate. by rewrite insertData_unfold.
    - set (w := set_sourceList
                  (snd (splice (sourceList s) index (default 1 count) [])) s).
      exists w, [], [Call_recycleList],
        (set_trace (trace (stretched w) ++ [Call_recycleList]) (stretched w)).
      split; [by apply (attached_ext s) |]. split; [done |]. split; [done |].
      split; [by rewrite app_nil_r |]. split; [done |]. split; [| done].
      unfold state_after, mutate, op_bind. rewrite deleteData_unfold.
      by destruct (_renderList _) as [[[] | e] s'].
    - exists (rebuilt items s),
        ((if fixedSize (options s) then [] else [Call_measureSize])
         ++ map Call_removeChild (reverse (drop 2 (children (container s))))
         ++ map Call_createHandler
              (seq (next_node s) (Z.to_nat (visibleCount s)))
         ++ [Call_append (seq (next_node s) (Z.to_nat (visibleCount s)))]
         ++ (if Z.of_nat (length items) <=? visibleCount s
             then [Call_scrollTo 0] else [])),
        [], (stretched (rebuilt items s)).
      split; [by apply attached_rebuilt |].
      split; [exact (eq_trans (dom_rebuilt_runway items s Hatt) Hs) |].
      split; [done |]. split; [done |].
      split; [by destruct (stretched (rebuilt items s)); unfold set_trace;
                 simpl; rewrite app_nil_r |].
      split; [unfold state_after, mutate;
              by rewrite updateData_rebuilt by by apply attached_children |].
      rewrite app_nil_r, !count_events_app, !count_events_map by done.
      by destruct (fixedSize (options s)),
           (Z.of_nat (length items) <=? visibleCount s). }
  destruct (stretch_then_render w u sentinel between Hw Hws Hu)
    as (Hsrc & Hopt & Hr & Hd & ran & Htr).
  rewrite <- Hs' in Hsrc, Hopt, Hr, Hd, Htr. rewrite Hwr in Hr, Hd.
  assert (Z.of_nat (length (sourceList s')) * itemHeight (options s')
          = actualContainerHeight w) as ->
    by (unfold actualContainerHeight; by rewrite Hsrc, Hopt).
  split; [done |]. split; [done |].
  split; [unfold position_of; by rewrite Hr, Hd |].
  exists before, between, (window_calls u ran). split.
  - apply events_since_app. rewrite Htr, Hwt. by rewrite <- app_assoc.
  - rewrite !app_assoc, !count_events_app, !count_events_window by done.
    rewrite <- !count_events_app. by rewrite Hc1, Hc2.
Qed.

End MutationClaims.

Lemma mutation_restretches_witness :
  attached Sample.mounted
  /\ position_of (state_after (mutate (DeleteData 3 (Some 100))) Sample.mounted)
       (runway (state_after (mutate (DeleteData 3 (Some 100))) Sample.mounted))
     = Some (0,
             Z.of_nat (length (sourceList
               (state_after (mutate (DeleteData 3 (Some 100))) Sample.mounted)))
             * itemHeight (options
                 (state_after (mutate (DeleteData 3 (Some 100))) Sample.mounted))
             - clientHeight Sample.sentinel).
Proof.
  assert (attached Sample.mounted) as Hatt
    by (apply (bool_decide_unpack _); by vm_compute).
  assert (dom Sample.mounted !! runway Sample.mounted
          = Some (mkElement 1 1 (Some (0, 2399)) None)) as Hs
    by (vm_compute; reflexivity).
  split; [exact Hatt |].
  exact (proj1 (proj2 (proj2
    (mutation_restretches (DeleteData 3 (Some 100)) Sample.mounted _ Hatt Hs)))).
Defined.

(** ** The size of the pool *)

Section PoolClaims.

Context {T : Type} `{Truthy T}.
Implicit Types (s u w : ListView T) (c : NodeId).

Lemma slot_count_rendered u :
  slot_count (state_after _renderList u) = slot_count u
  /\ visibleCount (state_after _renderList u) = visibleCount u.
Proof.
  destruct (_renderList_frame u) as (_ & Ho & Hc & _).
  unfold slot_count, visibleCount. by rewrite Ho, Hc.
Qed.

Lemma slot_count_resized s :
  slot_count (resized s)
  = (if virtualContainerHeight (cachedValue s)
        <? container_clientHeight (container s)
     then Z.max (slot_count s) (visibleCount s)
     else slot_count s)
  /\ visibleCount (resized s) = visibleCount s.
Proof.
  unfold resized.
  destruct (virtualContainerHeight (cachedValue s)
            <? container_clientHeight (container s)).
  - split; [| done]. unfold slot_count at 1. simpl.
    rewrite length_app, length_seq. unfold slot_count. lia.
  - by destruct (container_clientHeight (container s)
                 <? virtualContainerHeight (cachedValue s)).
Qed.

Lemma visibleCount_nonneg s :
  0 < itemHeight (options s) -> 0 <= container_clientHeight (container s) ->
  0 <= visibleCount s.
Proof.
  intros Hh Hv. unfold visibleCount, DSURPLUS_COUNT.
  pose proof (ceil_div_spec (container_clientHeight (container s))
                (itemHeight (options s)) Hh). nia.
Qed.

(** C5, amended.  [onResize] never removes a slot.  When the container is
    higher than the cached height it grows the pool to
    [ceil(viewportHeight / itemHeight) + DSURPLUS_COUNT] slots unless the
    pool already holds more; otherwise it leaves the pool as it is.  So
    the pool has exactly that many slots after a resize that grows a pool
    holding no more than that.  The count does not depend on the buffer.
    After [updateData] on an engine whose only child is the sentinel, the
    pool holds exactly [visibleCount] slots. *)
Theorem pool_size_after_resize s :
  let cachedHeight := virtualContainerHeight (cachedValue s) in
  let actualHeight := container_clientHeight (container s) in
  let s' := state_after onResize s in
  slot_count s'
  = (if cachedHeight <? actualHeight
     then Z.max (slot_count s) (visibleCount s)
     else slot_count s)
  /\ (cachedHeight < actualHeight -> slot_count s <= visibleCount s ->
      slot_count s'
      = ceil_div actualHeight (itemHeight (options s)) + DSURPLUS_COUNT)
  /\ (forall items,
        slot_count (state_after onResize (set_sourceList items s))
        = slot_count s')
  /\ (forall items,
        length (children (container s)) = 1%nat ->
        0 < itemHeight (options s) -> 0 <= actualHeight ->
        slot_count (state_after (updateData items) s)
        = ceil_div actualHeight (itemHeight (options s)) + DSURPLUS_COUNT).
Proof.
  intros cachedHeight actualHeight s'.
  assert (forall u,
            slot_count (state_after onResize u)
            = (if virtualContainerHeight (cachedValue u)
                  <? container_clientHeight (container u)
               then Z.max (slot_count u) (visibleCount u)
               else slot_count u)) as Hsize.
  { intros u. unfold state_after. rewrite onResize_resized.
    destruct (slot_count_rendered (resized u)) as [Hc _].
    unfold state_after in Hc. rewrite Hc. apply slot_count_resized. }
  split; [apply Hsize |]. split; [| split].
  - intros Hgrow Hle. subst s'. rewrite Hsize.
    fold cachedHeight actualHeight.
    destruct (Z.ltb_spec cachedHeight actualHeight); [| lia].
    unfold visibleCount in *. fold actualHeight in Hle |- *. lia.
  - intros items. subst s'. by rewrite !Hsize.
  - intros items Hlen Hh Hv. unfold state_after.
    rewrite updateData_rebuilt by (intros Hnil; by rewrite Hnil in Hlen).
    destruct (slot_count_rendered (stretched (rebuilt items s))) as [Hc _].
    unfold state_after in Hc. rewrite Hc.
    pose proof (visibleCount_nonneg s Hh Hv) as Hn.
    unfold slot_count, rebuilt. simpl.
    rewrite length_app, length_take, length_seq, Hlen.
    unfold visibleCount, RUNWAY_COUNT in *. fold actualHeight in Hn |- *. lia.
Qed.

End PoolClaims.

Lemma pool_size_after_resize_witness :
  slot_count (state_after onResize (set_clientHeight 100 Sample.sparse)) = 5.
Proof.
  apply (proj1 (proj2 (pool_size_after_resize
                         (set_clientHeight 100 Sample.sparse))));
    vm_compute; [reflexivity | discriminate].
Defined.

(** C5 as stated fails after a resize that shrinks the viewport: rows of
    24 pixels in a viewport shrunk from 72 to 48 pixels need two slots,
    and the pool still holds three. *)
Lemma pool_size_after_shrink_counterexample :
  Sample.shrunk = state_after (resize_signal 48) Sample.sparse
  /\ container_clientHeight (container Sample.shrunk) = 48
  /\ slot_count Sample.shrunk = 3
  /\ ceil_div (container_clientHeight (container Sample.shrunk))
       (itemHeight (options Sample.shrunk)) + DSURPLUS_COUNT = 2
  /\ slot_count Sample.shrunk
     <> ceil_div (container_clientHeight (container Sample.shrunk))
          (itemHeight (options Sample.shrunk)) + DSURPLUS_COUNT.
Proof.
  split; [reflexivity |]. split; [vm_compute; reflexivity |].
  split; [vm_compute; reflexivity |]. split; [vm_compute; reflexivity |].
  vm_compute. discriminate.
Qed.

(** [updateData] on an engine that already has slots keeps the first of
    them and appends [visibleCount] new ones: the removal loop stops
    above index [RUNWAY_COUNT], which is the index of the first slot. *)
Lemma updateData_keeps_first_slot :
  slot_count Sample.mounted = 5
  /\ visibleCount Sample.mounted = 5
  /\ slot_count (state_after (updateData Sample.numbers) Sample.mounted) = 6
  /\ children (container (state_after (updateData Sample.numbers) Sample.mounted))
     = [0; 1; 6; 7; 8; 9; 10]%nat.
Proof. repeat split; vm_compute; reflexivity. Qed.

(** ** Replacing the buffer *)

Section UpdateClaims.

Context {T : Type} `{Truthy T}.
Implicit Types (s u w : ListView T) (c : NodeId).

(** The calls of a window only depend on the buffer, the options and the
    container. *)
Lemma window_calls_ext u w indices :
  sourceList u = sourceList w -> options u = options w ->
  container u = container w ->
  window_calls u indices = window_calls w indices.
Proof.
  intros Hs Ho Hc. induction indices as [| i rest IH]; [done |].
  simpl. rewrite IH. f_equal.
  unfold slot_node, slot_calls, slot_bound, virtualList, startIndex,
    visibleCount. by rewrite Hs, Ho, Hc.
Qed.


End UpdateClaims.



(** * More of the class *)

(** ** Outcome and idempotence of a render pass *)

Section RenderTwice.

Context {T : Type} `{Truthy T}.
Implicit Types (s u w : ListView T) (i : Z) (c : NodeId).

Lemma painted_element_ext u w i e :
  sourceList u = sourceList w -> options u = options w ->
  container u = container w ->
  painted_element u i e = painted_element w i e.
Proof.
  intros Hs Ho Hc.
  unfold painted_element, slot_y, slot_bound, virtualList, startIndex,
    visibleCount. by rewrite Hs, Ho, Hc.
Qed.

Lemma paint_slots_ext u w indices d :
  sourceList u = sourceList w -> options u = options w ->
  container u = container w ->
  paint_slots u indices d = paint_slots w indices d.
Proof.
  intros Hs Ho Hc. revert d.
  induction indices as [| i rest IH]; intros d; [done |].
  simpl. rewrite IH. f_equal.
  unfold slot_node, paint_slot, slot_y, slot_bound, virtualList, startIndex,
    visibleCount. by rewrite Hs, Ho, Hc.
Qed.

Lemma painted_element_twice w i e :
  painted_element w i (painted_element w i e) = painted_element w i e.
Proof. unfold painted_element. by destruct (slot_bound w i). Qed.

(** Painting the same iterations again changes nothing. *)
Lemma paint_slots_twice w indices d :
  NoDup (children (container w)) -> NoDup indices ->
  paint_slots w indices (paint_slots w indices d) = paint_slots w indices d.
Proof.
  intros Hch Hnd. apply map_eq. intros c.
  destruct (decide (Exists (fun i => slot_node w i = Some c) indices))
    as [Hex | Hno].
  - apply Exists_exists in Hex as (i & Hi & Hc).
    rewrite !(paint_slots_at w indices _ i c) by done.
    destruct (d !! c); simpl; [| done]. by rewrite painted_element_twice.
  - apply paint_slots_other. by apply Forall_Exists_neg.
Qed.

Lemma window_of_NoDup s : NoDup (window_of s).
Proof. apply NoDup_seqZ. Qed.

Lemma elem_of_window_of s i :
  i ∈ window_of s <->
  0 <= i < visibleCount s /\ i < Z.max (slot_count s) 0.
Proof. unfold window_of. rewrite elem_of_seqZ. lia. Qed.

(** X1.  With rows of positive height, a render pass completes if and
    only if the pool has a slot for each of the [visibleCount] iterations
    (or there is none to run); otherwise it throws a [TypeError] at the
    first slot that has no node.  The slots before that one are positioned
    all the same: the throw does not undo them. *)
Theorem render_pass_outcome s :
  0 < itemHeight (options s) ->
  (completion _renderList s = Normal tt
   <-> visibleCount s <= Z.max (slot_count s) 0)
  /\ (completion _renderList s = Throw TypeError
      <-> Z.max (slot_count s) 0 < visibleCount s)
  /\ (attached s ->
      forall i c,
        0 <= i < visibleCount s -> slot_node s i = Some c ->
        position_of (state_after _renderList s) c = Some (0, slot_y s i)).
Proof.
  intros _. unfold completion, state_after. rewrite _renderList_exact.
  unfold render_outcome. cbn [fst snd].
  destruct (Z.leb_spec (visibleCount s) (Z.max (slot_count s) 0)).
  - split; [tauto |]. split; [split; [discriminate | lia] |].
    intros Hatt i c Hi Hc. unfold window_of. rewrite Z.min_l by lia.
    by apply (position_rendered_slot s i).
  - split; [split; [discriminate | lia] |]. split; [done |].
    intros Hatt i c Hi Hc. unfold position_of, rendered. cbn [dom].
    assert (is_Some (slot_node s i)) as Hs%index_is_Some by eauto.
    rewrite (paint_slots_at s _ _ i c);
      [| by destruct Hatt as (_ & ? & _) | apply window_of_NoDup | | done].
    + destruct (attached_dom s c Hatt (slot_node_child s i c Hc)) as [e ->].
      unfold painted_element. by destruct (slot_bound s i).
    + apply elem_of_window_of.
      unfold slot_count, RUNWAY_COUNT in *. lia.
Qed.

(** X2.  A render pass is idempotent on an attached engine: a second pass
    right after the first completes the same way, hands the same calls to
    the binder, and leaves every node, the container, the buffer and the
    cache as the first pass left them. *)
Theorem render_pass_idempotent s :
  attached s ->
  let s1 := state_after _renderList s in
  let s2 := state_after _renderList s1 in
  completion _renderList s1 = completion _renderList s
  /\ events_since s1 s2 = events_since s s1
  /\ dom s2 = dom s1
  /\ container s2 = container s1
  /\ sourceList s2 = sourceList s1
  /\ cachedValue s2 = cachedValue s1.
Proof.
  intros (_ & Hnd & _) s1 s2. subst s2 s1.
  unfold completion, state_after. rewrite !_renderList_exact. cbn [fst snd].
  set (s1 := rendered s (window_of s)).
  assert (window_of s1 = window_of s) as Hw by reflexivity.
  split; [reflexivity |].
  rewrite events_since_rendered, Hw.
  change (events_since s s1) with (events_since s (rendered s (window_of s))).
  rewrite events_since_rendered.
  split; [by rewrite (window_calls_ext s1 s) |].
  split; [| done].
  change (paint_slots s1 (window_of s) (paint_slots s (window_of s) (dom s))
          = paint_slots s (window_of s) (dom s)).
  rewrite (paint_slots_ext s1 s) by done.
  apply paint_slots_twice; [done | apply window_of_NoDup].
Qed.

End RenderTwice.

Lemma render_pass_outcome_witness :
  completion _renderList Sample.fresh = Throw TypeError
  /\ completion _renderList Sample.mounted = Normal tt.
Proof.
  split.
  - apply (proj1 (proj2 (render_pass_outcome Sample.fresh
                           ltac:(vm_compute; reflexivity)))).
    vm_compute. reflexivity.
  - apply (proj1 (render_pass_outcome Sample.mounted
                    ltac:(vm_compute; reflexivity))).
    vm_compute. discriminate.
Defined.

Lemma render_pass_idempotent_witness :
  dom (state_after _renderList (state_after _renderList Sample.scrolled))
  = dom (state_after _renderList Sample.scrolled).
Proof.
  assert (attached Sample.scrolled) as Hatt
    by (apply (bool_decide_unpack _); by vm_compute).
  exact (proj1 (proj2 (proj2 (render_pass_idempotent Sample.scrolled Hatt)))).
Defined.

(** ** An engine in working order stays so *)

Section Mounted.

Context {T : Type} `{Truthy T}.
Implicit Types (s u w : ListView T) (i : Z) (c : NodeId).

Lemma ceil_div_mono a a' b : 0 < b -> a <= a' -> ceil_div a b <= ceil_div a' b.
Proof.
  intros Hb Ha. unfold ceil_div.
  pose proof (Z.div_le_mono (- a') (- a) b Hb). lia.
Qed.

Lemma paint_slots_is_Some w indices d c :
  is_Some (d !! c) -> is_Some (paint_slots w indices d !! c).
Proof.
  revert d. induction indices as [| i rest IH]; intros d Hd; [done |].
  simpl. apply IH. destruct (slot_node w i) as [c' |]; [| done].
  unfold paint_slot.
  destruct (slot_bound w i); rewrite ?lookup_alter_is_Some; done.
Qed.

Lemma attached_rendered u ran : attached u -> attached (rendered u ran).
Proof.
  apply attached_ext; try done. intros c. apply paint_slots_is_Some.
Qed.

(** A render pass on an attached engine with a ready pool completes and
    leaves the engine in working order. *)
Lemma mounted_after_render u :
  attached u -> pool_ready u ->
  completion _renderList u = Normal tt /\ mounted (state_after _renderList u).
Proof.
  intros Hatt Hready.
  destruct (render_pass_ready u Hready) as [Hc Hst].
  split; [done |]. rewrite Hst. split; [by apply attached_rendered |].
  split; [by apply (pool_ready_ext u) | done].
Qed.

Lemma attached_resized s : attached s -> attached (resized s).
Proof.
  intros Hatt. unfold resized.
  destruct (virtualContainerHeight (cachedValue s)
            <? container_clientHeight (container s));
    [| by destruct (container_clientHeight (container s)
                    <? virtualContainerHeight (cachedValue s))].
  destruct Hatt as (Hr & Hnd & Hall). unfold attached. simpl.
  set (n := Z.to_nat (visibleCount s - slot_count s)).
  assert (forall c, c ∈ seq (next_node s) n <->
            (next_node s <= c < next_node s + n)%nat)
    as Hnodes by (intros c; apply elem_of_seq).
  split; [| split].
  - by apply lookup_app_l_Some.
  - apply NoDup_app. split; [done |]. split; [| apply NoDup_seq].
    intros c Hc Hc'. apply Hnodes in Hc'.
    apply (proj1 (Forall_forall _ _) Hall) in Hc as [_ Hc]. lia.
  - apply Forall_app. split; apply Forall_forall; intros c Hc.
    + apply (proj1 (Forall_forall _ _) Hall) in Hc as [[e He] Hlt].
      rewrite created_lookup. split; [| lia].
      by destruct (decide (c ∈ seq (next_node s) n)); [| rewrite He].
    + rewrite created_lookup, decide_True by done.
      apply Hnodes in Hc. split; [done | lia].
Qed.

Lemma options_resized s : options (resized s) = options s.
Proof.
  unfold resized.
  destruct (virtualContainerHeight (cachedValue s)
            <? container_clientHeight (container s)); [done |].
  by destruct (container_clientHeight (container s)
               <? virtualContainerHeight (cachedValue s)).
Qed.

Lemma pool_ready_rebuilt items s :
  attached s -> 0 < itemHeight (options s) ->
  pool_ready (stretched (rebuilt items s)).
Proof.
  intros Hatt Hh. pose proof (attached_children s Hatt) as Hne.
  unfold pool_ready, slot_count, rebuilt. simpl.
  change (visibleCount _) with (visibleCount s).
  rewrite length_app, length_take, length_seq.
  destruct (children (container s)); [done |].
  unfold RUNWAY_COUNT. simpl length. lia.
Qed.

(** X3.  [updateData] puts an attached engine with rows of positive
    height in working order, whatever its pool was before: the call
    completes, the children are the sentinel and distinct nodes of the
    store, the pool has a slot for every visible row, and the cached
    viewport height is the measured one. *)
Theorem updateData_mounts items s :
  attached s -> 0 < itemHeight (options s) ->
  completion (updateData items) s = Normal tt
  /\ mounted (state_after (updateData items) s).
Proof.
  intros Hatt Hh. unfold completion, state_after.
  rewrite updateData_rebuilt by by apply attached_children.
  apply mounted_after_render.
  - by apply attached_stretched, attached_rebuilt.
  - by apply pool_ready_rebuilt.
Qed.

(** Each signal either is a render pass from an attached state with a
    ready pool, or completes in such a state with the cache up to date. *)
Lemma handle_as_render sig s :
  mounted s ->
  exists u,
    attached u /\ pool_ready u
    /\ ((completion (handle sig) s = completion _renderList u
         /\ state_after (handle sig) s = state_after _renderList u)
        \/ (completion (handle sig) s = Normal tt
            /\ state_after (handle sig) s = u
            /\ virtualContainerHeight (cachedValue u)
               = container_clientHeight (container u))).
Proof.
  intros (Hatt & Hready & Hsync).
  destruct sig as [[items index | index count | items] | data index | | offset | viewport].
  - exists (stretched
              (set_sourceList
                 (snd (splice (sourceList s)
                         (insert_position (Z.of_nat (length (sourceList s))) index)
                         0 items)) s)).
    split; [| split].
    + apply attached_stretched. by apply (attached_ext s).
    + by apply (pool_ready_ext s).
    + left. unfold completion, state_after, handle, mutate.
      by rewrite insertData_unfold.
  - exists (set_trace
              (trace (stretched (set_sourceList
                 (snd (splice (sourceList s) index (default 1 count) [])) s))
               ++ [Call_recycleList])
              (stretched (set_sourceList
                 (snd (splice (sourceList s) index (default 1 count) [])) s))).
    split; [| split].
    + apply (attached_ext (stretched (set_sourceList
                 (snd (splice (sourceList s) index (default 1 count) [])) s)));
        try done.
      apply attached_stretched. by apply (attached_ext s).
    + by apply (pool_ready_ext s).
    + left. unfold completion, state_after, handle, mutate, op_bind.
      rewrite deleteData_unfold.
      by destruct (_renderList _) as [[[] | e] s'].
  - exists (stretched (rebuilt items s)).
    split; [by apply attached_stretched, attached_rebuilt |].
    split; [apply pool_ready_rebuilt; [done | apply Hready] |].
    left. unfold completion, state_after, handle, mutate.
    by rewrite updateData_rebuilt by by apply attached_children.
  - exists (state_after (renderItem data index) s).
    split; [by apply (attached_ext s) |].
    split; [by apply (pool_ready_ext s) |]. right. done.
  - exists (resized s). split; [by apply attached_resized |].
    split; [| left; unfold completion, state_after, handle, doResize;
              by rewrite onResize_resized].
    unfold resized. rewrite Hsync, Z.ltb_irrefl. done.
  - set (s0 := set_scrollTop offset s).
    assert (attached s0) as Hatt0 by by apply (attached_ext s).
    assert (pool_ready s0) as Hready0 by exact Hready.
    exists s0. split; [done |]. split; [done |].
    unfold completion, state_after, handle.
    assert (scroll_signal offset s = (Normal tt, s0)
            \/ scroll_signal offset s = _renderList s0) as [-> | ->].
    { unfold scroll_signal, onScroll, op_bind, modify, gets. fold s0.
      destruct ((scrollTop (container s0) <? 0) || _); auto. }
    + right. done.
    + left. done.
  - set (s0 := set_clientHeight viewport s).
    assert (attached s0) as Hatt0 by by apply (attached_ext s).
    exists (resized s0). split; [by apply attached_resized |].
    split; [| left; unfold completion, state_after, handle, resize_signal;
              unfold op_bind, modify; fold s0; by rewrite onResize_resized].
    destruct Hready as [Hh Hready].
    destruct (slot_count_resized s0) as [Hsc Hvc].
    split; [by rewrite options_resized |].
    rewrite Hvc, Hsc.
    change (virtualContainerHeight (cachedValue s0))
      with (virtualContainerHeight (cachedValue s)).
    change (container_clientHeight (container s0)) with viewport.
    change (slot_count s0) with (slot_count s).
    destruct (Z.ltb_spec (virtualContainerHeight (cachedValue s)) viewport);
      [lia |].
    etrans; [| exact Hready].
    unfold visibleCount. change (container_clientHeight (container s0)) with viewport.
    change (options s0) with (options s).
    pose proof (ceil_div_mono viewport (container_clientHeight (container s))
                  (itemHeight (options s)) Hh). lia.
Qed.

Lemma handle_mounted sig s :
  mounted s ->
  completion (handle sig) s = Normal tt /\ mounted (state_after (handle sig) s).
Proof.
  intros Hm.
  destruct (handle_as_render sig s Hm)
    as (u & Hatt & Hready & [[-> ->] | (-> & -> & Hsync)]).
  - by apply mounted_after_render.
  - done.
Qed.

(** X4.  From an engine in working order, every run of calls and signals
    (mutations, single-item renders, manual resizes, scrolls to any
    offset, resizes to any height) completes without a throw and leaves
    the engine in working order. *)
Theorem mounted_run_completes (sigs : list (Signal T)) s :
  mounted s ->
  completion (handle_all sigs) s = Normal tt
  /\ mounted (state_after (handle_all sigs) s).
Proof.
  revert s. induction sigs as [| sig sigs IH]; intros s Hm; [done |].
  destruct (handle_mounted sig s Hm) as [Hc Hm'].
  unfold completion, state_after in *. simpl. unfold op_bind.
  destruct (handle sig s) as [r s1]. simpl in *. subst r.
  by apply IH.
Qed.

End Mounted.

Lemma updateData_mounts_witness :
  attached Sample.fresh /\ mounted Sample.mounted.
Proof.
  assert (attached Sample.fresh) as Hatt
    by (apply (bool_decide_unpack _); by vm_compute).
  split; [exact Hatt |].
  exact (proj2 (updateData_mounts Sample.numbers Sample.fresh Hatt
                  ltac:(vm_compute; reflexivity))).
Defined.

Lemma mounted_run_completes_witness :
  completion
    (handle_all [Sig_scroll 240; Sig_resize 200;
                 Sig_mutate (DeleteData (-1) None); Sig_resize 50;
                 Sig_scroll (-5); Sig_renderItem 7 3; Sig_doResize])
    Sample.mounted = Normal tt.
Proof.
  assert (mounted Sample.mounted) as Hm
    by (apply (bool_decide_unpack _); by vm_compute).
  exact (proj1 (mounted_run_completes _ Sample.mounted Hm)).
Defined.

(** ** Who changes the pool *)

Section PoolOwners.

Context {T : Type} `{Truthy T}.
Implicit Types (s u w : ListView T) (i : Z) (c : NodeId).

Lemma count_pool_events_rendered u :
  count_events is_pool_event (Call_renderList :: window_calls u (window_of u))
  = 0%nat.
Proof.
  change (Call_renderList :: window_calls u (window_of u))
    with ([Call_renderList] ++ window_calls u (window_of u)).
  by rewrite count_events_app, count_events_window.
Qed.

(** A render pass makes no node and removes none. *)
Lemma render_keeps_pool u (before : list (Event T)) s :
  trace u = trace s ++ before ->
  count_events is_pool_event before = 0%nat ->
  let s' := state_after _renderList u in
  children (container s') = children (container u)
  /\ next_node s' = next_node u
  /\ count_events is_pool_event (events_since s s') = 0%nat.
Proof.
  intros Htr Hb s'. subst s'. unfold state_after.
  rewrite _renderList_exact. cbn [snd].
  split; [done |]. split; [done |].
  rewrite (events_since_app s _
             (before ++ Call_renderList :: window_calls u (window_of u))).
  - by rewrite count_events_app, Hb, count_pool_events_rendered.
  - unfold rendered. cbn [trace]. by rewrite Htr, <- app_assoc.
Qed.

(** X5.  [insertData], [deleteData], [renderItem] and a scroll to any
    offset never call the factory and never add, remove or reorder a
    child of the container, in whatever state the engine is and whether
    they complete or throw. *)
Theorem data_signals_keep_pool (sig : Signal T) s :
  touches_pool sig = false ->
  let s' := state_after (handle sig) s in
  children (container s') = children (container s)
  /\ next_node s' = next_node s
  /\ count_events is_pool_event (events_since s s') = 0%nat.
Proof.
  intros Hsig s'. subst s'.
  destruct sig as [[items index | index count | items] | data index | | offset | viewport];
    try discriminate.
  - unfold state_after, handle, mutate. rewrite insertData_unfold.
    set (u := stretched _).
    destruct (render_keeps_pool u [Call_stretchList] s eq_refl eq_refl)
      as (H1 & H2 & H3).
    split; [exact H1 |]. split; [exact H2 | exact H3].
  - set (w := stretched (set_sourceList
                 (snd (splice (sourceList s) index (default 1 count) [])) s)).
    assert (state_after (handle (Sig_mutate (DeleteData index count))) s
            = state_after _renderList
                (set_trace (trace w ++ [Call_recycleList]) w)) as ->.
    { unfold state_after, handle, mutate, op_bind. rewrite deleteData_unfold.
      fold w. by destruct (_renderList _) as [[[] | e] s']. }
    assert (trace (set_trace (trace w ++ [Call_recycleList]) w)
            = trace s ++ [Call_stretchList; Call_recycleList]) as Htr.
    { subst w. cbn [trace set_trace]. unfold stretched, state_after.
      cbn. by rewrite <- app_assoc. }
    destruct (render_keeps_pool _ _ s Htr eq_refl) as (H1 & H2 & H3).
    split; [exact H1 |]. split; [exact H2 | exact H3].
  - split; [done |]. split; [done |].
    unfold state_after, handle. rewrite renderItem_call. cbn [snd].
    by rewrite (events_since_app s _ [Call_renderHandler
                  (slot_node s (index - startIndex s)) data
                  (index - startIndex s + RUNWAY_COUNT)]).
  - set (s0 := set_scrollTop offset s).
    unfold state_after, handle.
    assert (scroll_signal offset s = (Normal tt, s0)
            \/ scroll_signal offset s = _renderList s0) as [-> | ->].
    { unfold scroll_signal, onScroll, op_bind, modify, gets. fold s0.
      destruct ((scrollTop (container s0) <? 0) || _); auto. }
    + cbn [snd]. split; [done |]. split; [done |].
      by rewrite (events_since_app s s0 []) by (cbn; by rewrite app_nil_r).
    + assert (trace s0 = trace s ++ []) as Htr by (cbn; by rewrite app_nil_r).
      destruct (render_keeps_pool s0 [] s Htr eq_refl) as (H1 & H2 & H3).
      split; [exact H1 |]. split; [exact H2 | exact H3].
Qed.

Lemma resized_children s :
  children (container (resized s))
  = children (container s) ++ seq (next_node s) (resize_deficit s)
  /\ sourceList (resized s) = sourceList s
  /\ scrollTop (container (resized s)) = scrollTop (container s)
  /\ exists before,
       trace (resized s) = trace s ++ before
       /\ count_events (fun e => match e with Call_removeChild _ => true
                                          | _ => false end) before = 0%nat.
Proof.
  unfold resized, resize_deficit.
  destruct (virtualContainerHeight (cachedValue s)
            <? container_clientHeight (container s)).
  - split; [done |]. split; [done |]. split; [done |].
    eexists. split; [reflexivity |].
    by rewrite count_events_app, count_events_map.
  - rewrite app_nil_r.
    destruct (container_clientHeight (container s)
              <? virtualContainerHeight (cachedValue s)).
    + split; [done |]. split; [done |]. split; [done |]. by eexists.
    + split; [done |]. split; [done |]. split; [done |].
      exists []. by rewrite app_nil_r.
Qed.

(** X6.  [onResize] only ever appends: the children it finds stay where
    they are, in their order; behind them come the nodes it got from the
    factory, which on an attached engine were not children before; no
    child is removed; the buffer and the scroll offset are not touched.
    It makes [visibleCount - slot count] nodes when the container is
    higher than the cached height, and none otherwise. *)
Theorem onResize_appends s :
  let s' := state_after onResize s in
  let made := seq (next_node s) (resize_deficit s) in
  children (container s') = children (container s) ++ made
  /\ sourceList s' = sourceList s
  /\ scrollTop (container s') = scrollTop (container s)
  /\ count_events (fun e => match e with Call_removeChild _ => true
                                     | _ => false end)
       (events_since s s') = 0%nat
  /\ (attached s -> forall c, c ∈ made -> c ∉ children (container s)).
Proof.
  intros s' made. subst s'. unfold state_after. rewrite onResize_resized.
  rewrite _renderList_exact. cbn [snd].
  destruct (resized_children s) as (Hch & Hsrc & Htop & before & Htr & Hb).
  split; [done |]. split; [done |]. split; [done |]. split.
  - rewrite (events_since_app s _
               (before ++ Call_renderList
                  :: window_calls (resized s) (window_of (resized s)))).
    + change (Call_renderList :: ?l) with ([Call_renderList] ++ l).
      by rewrite !count_events_app, Hb, count_events_window.
    + unfold rendered. cbn [trace]. by rewrite Htr, <- app_assoc.
  - intros (_ & _ & Hall) c [Hge _]%elem_of_seq Hc.
    apply (proj1 (Forall_forall _ _) Hall) in Hc as [_ Hlt]. lia.
Qed.

(** X7.  After [onResize] has run once, running it again without a change
    of the container's height makes no node: the second call is a render
    pass and nothing more, and on an attached engine it leaves every node
    as the first call left it. *)
Theorem onResize_twice s :
  let s1 := state_after onResize s in
  let s2 := state_after onResize s1 in
  onResize s1 = _renderList s1
  /\ children (container s2) = children (container s1)
  /\ next_node s2 = next_node s1
  /\ (attached s -> dom s2 = dom s1).
Proof.
  intros s1 s2.
  assert (s1 = rendered (resized s) (window_of (resized s))) as Hs1.
  { subst s1. unfold state_after.
    by rewrite onResize_resized, _renderList_exact. }
  assert (resized s1 = s1) as Hres.
  { assert (virtualContainerHeight (cachedValue s1)
            = container_clientHeight (container s1)) as Hsync
      by (by rewrite Hs1).
    unfold resized. by rewrite Hsync, Z.ltb_irrefl. }
  assert (onResize s1 = _renderList s1) as Hrun
    by (by rewrite onResize_resized, Hres).
  split; [done |]. subst s2. unfold state_after. rewrite Hrun.
  rewrite _renderList_exact. cbn [snd].
  split; [done |]. split; [done |].
  intros Hatt. rewrite Hs1.
  set (u := resized s).
  change (paint_slots (rendered u (window_of u)) (window_of u)
            (paint_slots u (window_of u) (dom u))
          = paint_slots u (window_of u) (dom u)).
  rewrite (paint_slots_ext (rendered u (window_of u)) u) by done.
  apply paint_slots_twice; [| apply window_of_NoDup].
  by destruct (attached_resized s Hatt) as (_ & ? & _).
Qed.

End PoolOwners.

Lemma data_signals_keep_pool_witness :
  children (container (state_after (handle (Sig_scroll 240)) Sample.mounted))
  = children (container Sample.mounted).
Proof.
  exact (proj1 (data_signals_keep_pool (Sig_scroll 240) Sample.mounted
                  eq_refl)).
Defined.

Lemma onResize_appends_witness :
  attached Sample2.taller
  /\ forall c,
       c ∈ seq (next_node Sample2.taller) (resize_deficit Sample2.taller) ->
       c ∉ children (container Sample2.taller).
Proof.
  assert (attached Sample2.taller) as Hatt
    by (apply (bool_decide_unpack _); by vm_compute).
  split; [exact Hatt |].
  exact (proj2 (proj2 (proj2 (proj2 (onResize_appends Sample2.taller)))) Hatt).
Defined.

Lemma onResize_twice_witness :
  attached Sample2.taller
  /\ dom (state_after onResize (state_after onResize Sample2.taller))
     = dom (state_after onResize Sample2.taller).
Proof.
  assert (attached Sample2.taller) as Hatt
    by (apply (bool_decide_unpack _); by vm_compute).
  split; [exact Hatt |].
  exact (proj2 (proj2 (proj2 (onResize_twice Sample2.taller))) Hatt).
Defined.

(** ** Where the rows are, and which slot [renderItem] picks *)

Section Geometry.

Context {T : Type} `{Truthy T}.
Implicit Types (s u w : ListView T) (i k : Z) (c : NodeId).

Lemma slot_y_row s i :
  0 < itemHeight (options s) -> 0 <= scrollTop (container s) ->
  slot_y s i = (startIndex s + i) * itemHeight (options s).
Proof.
  intros Hh Htop. unfold slot_y, startIndex. rewrite rem_nonneg by done. lia.
Qed.

(** X8.  After a render pass over a ready pool, with the scroll offset at
    or after the top, slot [i] of the window sits at the place of row
    [startIndex + i] in the whole list, [(startIndex + i) * itemHeight],
    and a slot that shows a truthy item carries that row's index as its
    tag.  The window starts in the row of the scroll offset; it ends less
    than one row short of the bottom of the viewport, and at or after it
    when the scroll offset is a whole number of rows. *)
Theorem window_geometry s :
  0 <= scrollTop (container s) -> attached s -> pool_ready s ->
  let s' := state_after _renderList s in
  let h := itemHeight (options s) in
  let top := scrollTop (container s) in
  let viewport := container_clientHeight (container s) in
  let first := startIndex s in
  let n := visibleCount s in
  first * h <= top < (first + 1) * h
  /\ top + viewport - h < (first + n) * h
  /\ (top `mod` h = 0 -> top + viewport <= (first + n) * h)
  /\ (forall i c,
        0 <= i < n -> slot_node s i = Some c ->
        position_of s' c = Some (0, (first + i) * h)
        /\ (forall data,
              sourceList s !! Z.to_nat (first + i) = Some data ->
              truthy data = true -> tag_of s' c = Some (first + i))).
Proof.
  intros Htop Hatt Hready s' h top viewport first n.
  pose proof (proj1 Hready) as Hh. fold h in Hh.
  pose proof (floor_div_spec top h Hh) as Hfloor.
  pose proof (ceil_div_spec viewport h Hh) as Hceil.
  assert (n = ceil_div viewport h) as Hn
    by (unfold n, visibleCount, DSURPLUS_COUNT; fold viewport h; lia).
  assert (first = floor_div top h) as Hfirst by reflexivity.
  rewrite <- Hfirst in Hfloor. rewrite <- Hn in Hceil.
  assert (first * h <= top < (first + 1) * h
          /\ top + viewport - h < (first + n) * h
          /\ (top `mod` h = 0 -> top + viewport <= (first + n) * h))
    as (Hrow & Hend & Haligned).
  { clear Hn. clearbody first n top viewport h.
    split; [lia |]. split; [nia |].
    intros Hmod.
    assert (top = first * h) as Htop'; [| nia].
    pose proof (Z.div_mod top h ltac:(lia)) as Hdm.
    rewrite Hfirst. unfold floor_div. lia. }
  split; [done |]. split; [done |]. split; [done |].
  intros i c Hi Hc.
  { 
    destruct (render_pass_ready s Hready) as [_ Hst].
    subst s'. rewrite Hst.
    rewrite (position_rendered_slot s i), (tag_rendered_slot s i) by done.
    rewrite slot_y_row by done. split; [done |].
    intros data Hd Ht. rewrite slot_bound_source by done.
    fold first. rewrite Hd, Ht. f_equal. lia. }
Qed.

(** X9.  After a complete render pass, [renderItem(data, k)] for a data
    index [k] that the pass has bound calls the binder once, on the very
    node that is tagged [k], and writes no node.  The index it hands over
    is [k - startIndex + RUNWAY_COUNT]. *)
Theorem renderItem_after_render data k s :
  0 <= scrollTop (container s) -> attached s -> pool_ready s ->
  let s' := state_after _renderList s in
  k ∈ bound_indices (events_since s s') ->
  exists c,
    tag_of s' c = Some k
    /\ renderItem data k s'
       = (Normal tt,
          set_trace
            (trace s'
             ++ [Call_renderHandler (Some c) data
                   (k - startIndex s + RUNWAY_COUNT)]) s').
Proof.
  intros Htop Hatt Hready s' Hk.
  pose proof (proj1 Hready) as Hh.
  destruct (render_pass_ready s Hready) as [_ Hst].
  subst s'. rewrite Hst in *.
  apply rendered_bound_index in Hk as [Hrange (d & Hd & Ht)]; [| done ..].
  set (i := k - startIndex s).
  assert (is_Some (slot_node s i)) as [c Hc].
  { apply index_is_Some.
    unfold pool_ready, slot_count, RUNWAY_COUNT in *. lia. }
  exists c. split.
  - rewrite (tag_rendered_slot s i) by (done || lia).
    rewrite slot_bound_source by (done || lia).
    replace (startIndex s + i) with k by lia. rewrite Hd, Ht.
    f_equal. lia.
  - rewrite renderItem_call.
    change (slot_node (rendered s (seqZ 0 (visibleCount s)))
              (k - startIndex (rendered s (seqZ 0 (visibleCount s)))))
      with (slot_node s i).
    by rewrite Hc.
Qed.

(** X10.  [renderItem] does not check that the index is in the window.
    For the index just before the window it hands the sentinel to the
    binder; for an index further before, or at or after the end of the
    pool, it hands over [undefined] in place of a node.  In no case does
    it write a node itself. *)
Theorem renderItem_outside_window data index s :
  let s' := state_after (renderItem data index) s in
  let handed := index - startIndex s + RUNWAY_COUNT in
  dom s' = dom s
  /\ (attached s -> index = startIndex s - 1 ->
      events_since s s' = [Call_renderHandler (Some (runway s)) data 0])
  /\ (index < startIndex s - 1 \/ startIndex s + slot_count s <= index ->
      events_since s s' = [Call_renderHandler None data handed]).
Proof.
  intros s' handed. subst s'. unfold state_after.
  rewrite renderItem_call. cbn [snd].
  split; [done |].
  rewrite (events_since_app s _ [Call_renderHandler
             (slot_node s (index - startIndex s)) data
             (index - startIndex s + RUNWAY_COUNT)]) by done.
  split.
  - intros (Hr & _) ->.
    replace (startIndex s - 1 - startIndex s) with (-1) by lia.
    change (slot_node s (-1)) with (children (container s) !! 0%nat).
    by rewrite Hr.
  - intros Hout.
    assert (slot_node s (index - startIndex s) = None) as ->; [| done].
    destruct (slot_node s (index - startIndex s)) as [c |] eqn:Hc; [| done].
    assert (is_Some (slot_node s (index - startIndex s))) as Hs by eauto.
    apply index_is_Some in Hs.
    unfold slot_count, RUNWAY_COUNT in *. lia.
Qed.

End Geometry.

Lemma window_geometry_witness :
  attached Sample.scrolled /\ pool_ready Sample.scrolled
  /\ scrollTop (container Sample.scrolled) + container_clientHeight (container Sample.scrolled)
     <= (startIndex Sample.scrolled + visibleCount Sample.scrolled)
        * itemHeight (options Sample.scrolled).
Proof.
  assert (attached Sample.scrolled) as Hatt
    by (apply (bool_decide_unpack _); by vm_compute).
  assert (pool_ready Sample.scrolled) as Hready by (by vm_compute).
  assert (0 <= scrollTop (container Sample.scrolled)) as Htop
    by (by vm_compute).
  split; [exact Hatt |]. split; [exact Hready |].
  apply (proj1 (proj2 (proj2
           (window_geometry Sample.scrolled Htop Hatt Hready)))).
  vm_compute. reflexivity.
Defined.

Lemma renderItem_after_render_witness :
  exists c,
    tag_of (state_after _renderList Sample.scrolled) c = Some 12
    /\ renderItem 999 12 (state_after _renderList Sample.scrolled)
       = (Normal tt,
          set_trace
            (trace (state_after _renderList Sample.scrolled)
             ++ [Call_renderHandler (Some c) 999
                   (12 - startIndex Sample.scrolled + RUNWAY_COUNT)])
            (state_after _renderList Sample.scrolled)).
Proof.
  assert (attached Sample.scrolled) as Hatt
    by (apply (bool_decide_unpack _); by vm_compute).
  assert (pool_ready Sample.scrolled) as Hready by (by vm_compute).
  assert (0 <= scrollTop (container Sample.scrolled)) as Htop
    by (by vm_compute).
  assert (12 ∈ bound_indices
                 (events_since Sample.scrolled
                    (state_after _renderList Sample.scrolled))) as Hk.
  { vm_compute. do 2 right. left. }
  exact (renderItem_after_render 999 12 Sample.scrolled Htop Hatt Hready Hk).
Defined.

Lemma renderItem_outside_window_witness :
  attached Sample.scrolled
  /\ events_since Sample.scrolled
       (state_after (renderItem 999 9) Sample.scrolled)
     = [Call_renderHandler (Some (runway Sample.scrolled)) 999 0].
Proof.
  assert (attached Sample.scrolled) as Hatt
    by (apply (bool_decide_unpack _); by vm_compute).
  split; [exact Hatt |].
  apply (proj1 (proj2 (renderItem_outside_window 999 9 Sample.scrolled)) Hatt).
  vm_compute. reflexivity.
Defined.

(** ** Round trip, a second [updateData], and new options *)

Section MoreMutations.

Context {T : Type} `{Truthy T}.
Implicit Types (s u w : ListView T) (i k : Z) (c : NodeId).

Lemma completion_deleteData_inv index count s removed :
  completion (deleteData index count) s = Normal removed ->
  removed = fst (splice (sourceList s) index (default 1 count) []).
Proof.
  unfold completion. rewrite deleteData_unfold.
  destruct (_renderList _) as [[[] | e] s']; simpl; congruence.
Qed.

(** X11.  Deleting and putting back: when [deleteData(index, count)] with
    [index >= 0] has returned [removed], [insertData(removed, index)]
    makes the buffer what it was before the deletion. *)
Theorem deleteData_insertData_round_trip index count removed s :
  0 <= index ->
  completion (deleteData index count) s = Normal removed ->
  let s1 := state_after (deleteData index count) s in
  let s2 := state_after (insertData removed (Some index)) s1 in
  sourceList s2 = sourceList s.
Proof.
  intros Hindex Hc s1 s2. subst s2 s1.
  apply completion_deleteData_inv in Hc.
  rewrite sourceList_insertData, sourceList_deleteData.
  set (l := sourceList s) in *.
  destruct (splice_removed l index (default 1 count) []) as (Hl & Hrest & Hlen).
  rewrite <- Hc in Hl, Hrest, Hlen. rewrite Hrest. simpl app in *.
  set (len := Z.of_nat (length l)) in *.
  assert (relative len index = Z.min index len) as Hk
    by (unfold relative; destruct (Z.ltb_spec index 0); lia).
  rewrite Hk in *.
  set (k := Z.to_nat (Z.min index len)) in *.
  set (l' := take k l ++ drop (k + length removed) l).
  assert (Z.of_nat (length l') = len - Z.of_nat (length removed)) as Hlen'.
  { subst l'. rewrite length_app, length_take, length_drop. lia. }
  destruct (Z_le_gt_dec index len) as [Hin | Hout].
  - assert (insert_position (Z.of_nat (length l')) (Some index) = index) as ->.
    { unfold insert_position.
      destruct (Z.ltb_spec index 0), (Z.ltb_spec (Z.of_nat (length l')) index);
        simpl; lia. }
    rewrite splice_insert by lia.
    replace (Z.to_nat index) with k by lia.
    subst l'. rewrite take_app_le, drop_app_ge by (rewrite length_take; lia).
    rewrite take_take, Nat.min_id, length_take.
    replace (k - k `min` length l)%nat with 0%nat by lia.
    rewrite drop_0. by rewrite <- Hl.
  - assert (removed = []) as -> by (apply nil_length_inv; lia).
    assert (insert_position (Z.of_nat (length l')) (Some index)
            = Z.of_nat (length l')) as ->.
    { unfold insert_position.
      destruct (Z.ltb_spec index 0), (Z.ltb_spec (Z.of_nat (length l')) index);
        simpl in *; lia. }
    rewrite splice_insert by lia. rewrite Nat2Z.id.
    rewrite take_ge, drop_ge by lia. simpl. rewrite app_nil_r.
    subst l'. simpl. by rewrite Nat.add_0_r, take_drop.
Qed.

(** X12.  [updateData] on an attached engine that already has a slot does
    not remove all of them: the removal loop stops above index
    [RUNWAY_COUNT], so the first slot stays and serves as slot 0 again.
    With the [visibleCount] new nodes the pool then has one slot more
    than the window; the last new node is beyond the window, and the
    render pass leaves it without a position and without a tag. *)
Theorem updateData_keeps_first_slot_of_pool items s :
  attached s -> 0 < itemHeight (options s) ->
  0 < container_clientHeight (container s) -> 1 <= slot_count s ->
  let s' := state_after (updateData items) s in
  let n := visibleCount s in
  let last := (next_node s + Z.to_nat n - 1)%nat in
  slot_count s' = n + 1
  /\ slot_node s' 0 = slot_node s 0
  /\ slot_node s' n = Some last
  /\ (last ∉ children (container s))
  /\ dom s' !! last = Some blank_element.
Proof.
  intros Hatt Hh Hv Hslots s' n last.
  assert (1 <= n) as Hn.
  { pose proof (ceil_div_spec (container_clientHeight (container s))
                  (itemHeight (options s)) Hh).
    unfold n, visibleCount, DSURPLUS_COUNT. nia. }
  set (w := stretched (rebuilt items s)).
  assert (attached w) as Hw by by apply attached_stretched, attached_rebuilt.
  assert (s' = rendered w (window_of w)) as Hs'.
  { subst s'. unfold state_after.
    rewrite updateData_rebuilt by by apply attached_children.
    by rewrite _renderList_exact. }
  assert (children (container s')
          = take 2 (children (container s))
            ++ seq (next_node s) (Z.to_nat n)) as Hch by (by rewrite Hs').
  assert (2 <= length (children (container s)))%nat as Hlen
    by (unfold slot_count, RUNWAY_COUNT in Hslots; lia).
  assert (slot_node s' n = Some last) as Hlast.
  { unfold slot_node. apply index_Some.
    split; [unfold RUNWAY_COUNT; lia |]. rewrite Hch.
    rewrite lookup_app_r by (rewrite length_take; unfold RUNWAY_COUNT; lia).
    rewrite length_take. apply lookup_seq. unfold last, RUNWAY_COUNT. lia. }
  assert (last ∉ children (container s)) as Hfresh.
  { intros Hin. destruct Hatt as (_ & _ & Hall).
    apply (proj1 (Forall_forall _ _) Hall) in Hin as [_ Hlt].
    unfold last in Hlt. lia. }
  split; [unfold slot_count; rewrite Hch, length_app, length_take, length_seq;
          unfold RUNWAY_COUNT; lia |].
  split.
  { unfold slot_node. change (0 + RUNWAY_COUNT) with 1.
    change 1 with (Z.of_nat 1). rewrite !index_of_nat, Hch.
    rewrite lookup_app_l by (rewrite length_take; lia).
    by rewrite lookup_take_lt by lia. }
  split; [done |]. split; [done |].
  rewrite Hs' in Hlast |- *.
  assert (window_of w = seqZ 0 (visibleCount w)) as Hwin.
  { unfold window_of. f_equal.
    destruct (pool_ready_rebuilt items s Hatt Hh) as [_ Hr]. fold w in Hr. lia. }
  rewrite Hwin in *.
  rewrite (rendered_beyond w n last Hw) by (done || reflexivity).
  assert (last <> runway s) as Hne.
  { intros Heq. apply Hfresh. rewrite Heq.
    destruct Hatt as (Hr & _). by apply list_elem_of_lookup_2 in Hr. }
  unfold w. rewrite dom_stretched, decide_False by (cbn; congruence).
  unfold rebuilt. cbn [dom]. rewrite created_lookup, decide_True; [done |].
  apply elem_of_seq. unfold last. fold n. lia.
Qed.

(** X13.  [updateOptions] only replaces the options: it renders nothing,
    does not stretch the sentinel again and makes no slot.  When the new
    rows are so much lower that the window needs more slots than the pool
    has, the next [insertData], [deleteData] and [doResize] throw a
    [TypeError] from their render pass ([doResize] makes no slot, as the
    height of the container has not changed); [updateData] puts the
    engine in working order again. *)
Theorem updateOptions_outgrows_pool (o : Options) items index from count s :
  mounted s -> 0 < itemHeight o ->
  slot_count s
  < ceil_div (container_clientHeight (container s)) (itemHeight o)
    + DSURPLUS_COUNT ->
  let s1 := state_after (updateOptions o) s in
  dom s1 = dom s /\ trace s1 = trace s
  /\ children (container s1) = children (container s)
  /\ completion (insertData items index) s1 = Throw TypeError
  /\ completion (deleteData from count) s1 = Throw TypeError
  /\ completion doResize s1 = Throw TypeError
  /\ mounted (state_after (updateData items) s1).
Proof.
  intros (Hatt & Hready & Hsync) Ho Hsmall s1.
  assert (attached s1) as Hatt1 by by apply (attached_ext s).
  assert (0 <= slot_count s) as Hsc.
  { pose proof (attached_children s Hatt).
    unfold slot_count, RUNWAY_COUNT.
    destruct (children (container s)); [done | simpl length; lia]. }
  assert (forall u,
            options u = o -> container u = container s ->
            completion _renderList u = Throw TypeError) as Hthrow.
  { intros u Hou Hcu. unfold completion. rewrite _renderList_exact. cbn [fst].
    unfold render_outcome, visibleCount, slot_count in *. rewrite Hou, Hcu.
    destruct (Z.leb_spec
                (ceil_div (container_clientHeight (container s)) (itemHeight o)
                 + DSURPLUS_COUNT)
                (Z.max (Z.of_nat (length (children (container s)))
                        - RUNWAY_COUNT) 0)); [lia | done]. }
  split; [done |]. split; [done |]. split; [done |].
  split; [unfold completion; rewrite insertData_unfold; by apply Hthrow |].
  split.
  { unfold completion. rewrite deleteData_unfold.
    set (u := set_trace _ _).
    pose proof (Hthrow u eq_refl eq_refl) as Hu. unfold completion in Hu.
    destruct (_renderList u) as [[[] | e] s']; simpl in *; congruence. }
  split.
  { unfold completion, doResize. rewrite onResize_resized.
    assert (resized s1 = s1) as ->.
    { unfold resized.
      change (virtualContainerHeight (cachedValue s1))
        with (virtualContainerHeight (cachedValue s)).
      change (container_clientHeight (container s1))
        with (container_clientHeight (container s)).
      by rewrite Hsync, Z.ltb_irrefl. }
    by apply Hthrow. }
  unfold state_after.
  rewrite updateData_rebuilt by by apply attached_children.
  apply mounted_after_render.
  - by apply attached_stretched, attached_rebuilt.
  - by apply pool_ready_rebuilt.
Qed.

End MoreMutations.

Lemma deleteData_insertData_round_trip_witness :
  sourceList
    (state_after (insertData [20; 30] (Some 1))
       (state_after (deleteData 1 (Some 5)) Sample.short))
  = sourceList Sample.short.
Proof.
  apply (deleteData_insertData_round_trip 1 (Some 5) [20; 30] Sample.short).
  - lia.
  - vm_compute. reflexivity.
Defined.

Lemma updateData_keeps_first_slot_of_pool_witness :
  attached Sample.mounted
  /\ slot_count (state_after (updateData [1; 2; 3]) Sample.mounted)
     = visibleCount Sample.mounted + 1.
Proof.
  assert (attached Sample.mounted) as Hatt
    by (apply (bool_decide_unpack _); by vm_compute).
  assert (0 < itemHeight (options Sample.mounted)) as Hh
    by (vm_compute; reflexivity).
  assert (0 < container_clientHeight (container Sample.mounted)) as Hv
    by (vm_compute; reflexivity).
  assert (1 <= slot_count Sample.mounted) as Hs
    by (vm_compute; discriminate).
  split; [exact Hatt |].
  exact (proj1 (updateData_keeps_first_slot_of_pool [1; 2; 3] Sample.mounted
                  Hatt Hh Hv Hs)).
Defined.

Lemma updateOptions_outgrows_pool_witness :
  mounted Sample.mounted
  /\ completion (insertData [7] None)
       (state_after (updateOptions Sample3.options12) Sample.mounted)
     = Throw TypeError.
Proof.
  assert (mounted Sample.mounted) as Hm
    by (apply (bool_decide_unpack _); by vm_compute).
  assert (0 < itemHeight Sample3.options12) as Ho by (vm_compute; reflexivity).
  assert (slot_count Sample.mounted
          < ceil_div (container_clientHeight (container Sample.mounted))
              (itemHeight Sample3.options12) + DSURPLUS_COUNT) as Hsmall
    by (vm_compute; reflexivity).
  split; [exact Hm |].
  exact (proj1 (proj2 (proj2 (proj2
    (updateOptions_outgrows_pool Sample3.options12 [7] None 0 None
       Sample.mounted Hm Ho Hsmall))))).
Defined.

(** ** A new engine *)

Section Fresh.

Context {T : Type} `{Truthy T}.
Implicit Types (s u w : ListView T).

(** X14.  An engine as the constructor leaves it, with rows of positive
    height in a container that has a height, is attached but has no slot.
    [insertData] on it edits the buffer and then throws a [TypeError]
    from its render pass.  [updateData] and [doResize] each make the
    slots and put the engine in working order. *)
Theorem new_engine_needs_slots (opts : Options) viewport sentinel
    (items : list T) index :
  0 < itemHeight opts -> 0 < viewport ->
  let s := construct opts viewport sentinel in
  attached s /\ slot_count s = 0
  /\ completion (insertData items index) s = Throw TypeError
  /\ sourceList (state_after (insertData items index) s) = items
  /\ mounted (state_after (updateData items) s)
  /\ mounted (state_after doResize s).
Proof.
  intros Hh Hv s.
  assert (attached s) as Hatt.
  { split; [done |]. split; [apply NoDup_singleton |].
    apply Forall_singleton. split; [| simpl; lia].
    subst s. unfold construct. cbn [dom]. rewrite lookup_singleton_eq. eauto. }
  assert (1 <= visibleCount s) as Hn.
  { pose proof (ceil_div_spec viewport (itemHeight opts) Hh).
    unfold visibleCount, DSURPLUS_COUNT. cbn. nia. }
  split; [done |]. split; [done |]. split.
  { unfold completion. rewrite insertData_unfold, _renderList_exact. cbn [fst].
    unfold render_outcome.
    change (visibleCount (stretched _)) with (visibleCount s).
    change (slot_count (stretched _)) with 0.
    by destruct (Z.leb_spec (visibleCount s) (Z.max 0 0)); [lia |]. }
  split.
  { rewrite sourceList_insertData.
    change (sourceList s) with (@nil T). cbn [length].
    assert (insert_position (Z.of_nat 0) index = 0) as ->.
    { destruct index as [i |]; [| done]. cbn [insert_position].
      destruct (Z.ltb_spec i 0), (Z.ltb_spec (Z.of_nat 0) i); simpl; lia. }
    rewrite splice_insert by (simpl; lia). simpl. apply app_nil_r. }
  split.
  { unfold state_after.
    rewrite updateData_rebuilt by by apply attached_children.
    apply mounted_after_render;
      [by apply attached_stretched, attached_rebuilt
      | by apply pool_ready_rebuilt]. }
  unfold state_after, doResize. rewrite onResize_resized.
  apply mounted_after_render; [by apply attached_resized |].
  split; [by rewrite options_resized |].
  destruct (slot_count_resized s) as [-> ->].
  change (virtualContainerHeight (cachedValue s)) with 0.
  change (container_clientHeight (container s)) with viewport.
  destruct (Z.ltb_spec 0 viewport); lia.
Qed.

End Fresh.

Lemma new_engine_needs_slots_witness :
  completion (insertData [7] None) Sample.fresh = Throw TypeError
  /\ mounted (state_after doResize Sample.fresh).
Proof.
  pose proof (new_engine_needs_slots Sample.options24 100 Sample.sentinel
                [7] None ltac:(vm_compute; reflexivity)
                ltac:(vm_compute; reflexivity)) as (_ & _ & Hi & _ & _ & Hr).
  split; [exact Hi | exact Hr].
Defined.

(** ** Listeners *)

Section Listeners.

Context {T : Type} `{Truthy T}.
Implicit Types (s u : ListView T) (host : Host T) (l : Listener)
  (ls : list Listener).

Lemma removeEventListener_absent l ls :
  l ∉ ls -> removeEventListener l ls = ls.
Proof.
  unfold removeEventListener. induction ls as [| x ls IH]; intros Hl; [done |].
  apply not_elem_of_cons in Hl as [Hne Hl].
  rewrite filter_cons, decide_True by done. by rewrite IH.
Qed.

Lemma registered_no_method host l :
  registered host -> (exists h, callback l = Method h) -> l ∉ listeners host.
Proof.
  intros Hreg [h Hl] Hin.
  apply (proj1 (Forall_forall _ _) Hreg) in Hin. by rewrite Hl in Hin.
Qed.

Lemma add_bound_spec target name h host :
  registered host ->
  listeners (add_bound target name h host)
  = listeners host ++ [mkListener target name (Bound h (bind_count host))]
  /\ registered (add_bound target name h host).
Proof.
  intros Hreg.
  assert (mkListener target name (Bound h (bind_count host))
          ∉ listeners host) as Hnew.
  { intros Hin. apply (proj1 (Forall_forall _ _) Hreg) in Hin.
    simpl in Hin. lia. }
  assert (listeners (add_bound target name h host)
          = listeners host
            ++ [mkListener target name (Bound h (bind_count host))]) as Hls.
  { unfold add_bound, addEventListener. cbn [listeners].
    by rewrite decide_False. }
  split; [done |]. unfold registered. rewrite Hls.
  apply Forall_app. split.
  - eapply Forall_impl; [exact Hreg |]. intros x Hx.
    cbn beta in Hx |- *. cbn [bind_count add_bound].
    destruct (callback x); [done | lia].
  - apply Forall_singleton. simpl. lia.
Qed.

(** What [invoke] registers: always new listeners, behind the ones that
    are there. *)
Lemma invoke_listeners host :
  registered host ->
  let b := bind_count host in
  listeners (invoke host)
  = listeners host
    ++ [mkListener TheContainer Name_scroll (Bound Handler_onScroll b);
        mkListener TheContainer Name_click (Bound Handler_onClick (S b))]
    ++ (if fixedSize (options (list_view host)) then []
        else [mkListener Window Name_resize (Bound Handler_onResize (S (S b)))])
  /\ registered (invoke host).
Proof.
  intros Hreg b. unfold invoke.
  destruct (add_bound_spec TheContainer Name_scroll Handler_onScroll host Hreg)
    as [Hl1 Hreg1].
  set (h1 := add_bound TheContainer Name_scroll Handler_onScroll host) in *.
  destruct (add_bound_spec TheContainer Name_click Handler_onClick h1 Hreg1)
    as [Hl2 Hreg2].
  set (h2 := add_bound TheContainer Name_click Handler_onClick h1) in *.
  change (options (list_view h2)) with (options (list_view host)).
  destruct (fixedSize (options (list_view host))).
  - cbn [listeners]. split; [| exact Hreg2].
    rewrite Hl2, Hl1. by rewrite <- app_assoc, app_nil_r.
  - destruct (add_bound_spec Window Name_resize Handler_onResize h2 Hreg2)
      as [Hl3 Hreg3].
    cbn [listeners]. split; [| exact Hreg3].
    rewrite Hl3, Hl2, Hl1. by rewrite <- !app_assoc.
Qed.

(** X15.  [invoke] registers functions made by [bind], and [dispose]
    asks the browser to remove the methods themselves, which were never
    registered.  So the three [removeEventListener] calls of [dispose]
    remove nothing: every listener that [invoke] has added is still
    registered after them.  Each [invoke] adds two listeners to the
    container, and one to the window unless [fixedSize]; none of them
    is taken for one that is there already. *)
Theorem dispose_removes_no_listener host :
  registered host ->
  let added := if fixedSize (options (list_view host)) then 2%nat else 3%nat in
  registered (invoke host)
  /\ length (listeners (invoke host)) = (length (listeners host) + added)%nat
  /\ listeners (dispose_removeEventListeners (invoke host))
     = listeners (invoke host).
Proof.
  intros Hreg added. destruct (invoke_listeners host Hreg) as [Hls Hreg'].
  split; [done |]. split.
  - rewrite Hls, !length_app. subst added.
    by destruct (fixedSize (options (list_view host))).
  - unfold dispose_removeEventListeners. cbn [listeners].
    do 3 (rewrite (removeEventListener_absent _ (listeners (invoke host)))
            by (apply registered_no_method; [done | by eexists])).
    done.
Qed.

End Listeners.

Section Dispatch.

Context {T : Type} `{Truthy T}.
Implicit Types (s u : ListView T) (host : Host T) (l : Listener)
  (ls : list Listener) (cs : list Callback).

Lemma callbacks_for_app target name ls ls' :
  callbacks_for target name (ls ++ ls')
  = callbacks_for target name ls ++ callbacks_for target name ls'.
Proof. unfold callbacks_for. by rewrite filter_app, map_app. Qed.

Lemma list_view_invoke host :
  list_view (invoke host) = state_after _measureSize (list_view host).
Proof.
  unfold invoke. cbn [list_view add_bound].
  by destruct (fixedSize (options (list_view host))).
Qed.

(** The engine and the listeners after [n] calls of [invoke] on a new
    host. *)
Lemma iter_invoke_spec n s :
  let host := Nat.iter n invoke (new_host s) in
  registered host
  /\ (options (list_view host) = options s
      /\ container (list_view host) = container s
      /\ sourceList (list_view host) = sourceList s
      /\ dom (list_view host) = dom s
      /\ runway (list_view host) = runway s
      /\ next_node (list_view host) = next_node s
      /\ virtualContainerHeight (cachedValue (list_view host))
         = virtualContainerHeight (cachedValue s))
  /\ (length (callbacks_for TheContainer Name_scroll (listeners host)) = n
      /\ Forall (fun c => exists k, c = Bound Handler_onScroll k)
           (callbacks_for TheContainer Name_scroll (listeners host)))
  /\ (if fixedSize (options s)
      then callbacks_for Window Name_resize (listeners host) = []
      else length (callbacks_for Window Name_resize (listeners host)) = n
           /\ Forall (fun c => exists k, c = Bound Handler_onResize k)
                (callbacks_for Window Name_resize (listeners host))).
Proof.
  induction n as [| n IH].
  - simpl. split; [apply Forall_nil_2 |]. split; [done |]. split; [done |].
    by destruct (fixedSize (options s)).
  - change (Nat.iter (S n) invoke (new_host s))
      with (invoke (Nat.iter n invoke (new_host s))).
    set (host := Nat.iter n invoke (new_host s)) in *.
    cbv zeta in IH.
    destruct IH as (Hreg & (Ho & Hc & Hs & Hd & Hr & Hn & Hv) & [Hlen Hall] & Hres).
    destruct (invoke_listeners host Hreg) as [Hls Hreg'].
    cbv zeta. split; [done |]. rewrite list_view_invoke.
    split; [by rewrite <- Ho, <- Hc, <- Hs, <- Hd, <- Hr, <- Hn, <- Hv |].
    rewrite Hls, !callbacks_for_app, Ho.
    set (b := bind_count host).
    change (callbacks_for TheContainer Name_scroll
              [mkListener TheContainer Name_scroll (Bound Handler_onScroll b);
               mkListener TheContainer Name_click (Bound Handler_onClick (S b))])
      with [Bound Handler_onScroll b].
    change (callbacks_for Window Name_resize
              [mkListener TheContainer Name_scroll (Bound Handler_onScroll b);
               mkListener TheContainer Name_click (Bound Handler_onClick (S b))])
      with (@nil Callback).
    destruct (fixedSize (options s)).
    + change (callbacks_for ?t ?n []) with (@nil Callback).
      rewrite !app_nil_r. split; [split |].
      * rewrite length_app, Hlen. simpl. lia.
      * apply Forall_app. split; [done |]. apply Forall_singleton. eauto.
      * by rewrite Hres.
    + change (callbacks_for TheContainer Name_scroll
                [mkListener Window Name_resize
                   (Bound Handler_onResize (S (S b)))])
        with (@nil Callback).
      change (callbacks_for Window Name_resize
                [mkListener Window Name_resize
                   (Bound Handler_onResize (S (S b)))])
        with [Bound Handler_onResize (S (S b))].
      rewrite !app_nil_r. destruct Hres as [Hrl Hra].
      split; [split | split].
      * rewrite length_app, Hlen. simpl. lia.
      * apply Forall_app. split; [done |]. apply Forall_singleton. eauto.
      * rewrite length_app, Hrl. simpl. lia.
      * apply Forall_app. split; [done |]. apply Forall_singleton. eauto.
Qed.

(** A scroll listener on an engine in working order, with the offset in
    the range of the guard, is a render pass. *)
Lemma onScroll_in_range u :
  virtualContainerHeight (cachedValue u) = container_clientHeight (container u) ->
  0 <= scrollTop (container u) ->
  scrollTop (container u) + container_clientHeight (container u)
  <= actualContainerHeight u ->
  onScroll u = _renderList u.
Proof.
  intros Hsync Hlo Hhi. unfold onScroll, op_bind, gets. rewrite Hsync.
  destruct (Z.ltb_spec (scrollTop (container u)) 0),
    (Z.ltb_spec (actualContainerHeight u)
       (scrollTop (container u) + container_clientHeight (container u)));
    simpl; try lia. done.
Qed.

Lemma run_scroll_callbacks cs u :
  Forall (fun c => exists k, c = Bound Handler_onScroll k) cs ->
  virtualContainerHeight (cachedValue u) = container_clientHeight (container u) ->
  0 <= scrollTop (container u) ->
  scrollTop (container u) + container_clientHeight (container u)
  <= actualContainerHeight u ->
  exists evs,
    trace (run_callbacks cs u) = trace u ++ evs
    /\ count_events is_renderList evs = length cs.
Proof.
  revert u. induction cs as [| c cs IH]; intros u Hall Hsync Hlo Hhi.
  - exists []. by rewrite app_nil_r.
  - apply Forall_cons in Hall as [[k ->] Hall].
    cbn [run_callbacks run_callback]. unfold state_after.
    rewrite onScroll_in_range, _renderList_exact by done. cbn [snd].
    destruct (IH (rendered u (window_of u)) Hall) as (evs & Htr & Hn);
      [done .. |].
    exists (Call_renderList :: window_calls u (window_of u) ++ evs).
    split.
    + rewrite Htr. unfold rendered. cbn [trace]. by rewrite <- app_assoc.
    + change (Call_renderList :: ?l) with ([Call_renderList] ++ l).
      rewrite !count_events_app, count_events_window, Hn by done. done.
Qed.

(** X16.  Each call of [invoke] adds a scroll listener of its own.  On an
    engine in working order that [invoke] was called on [n] times, one
    scroll of the user to an offset in the range of the guard runs [n]
    render passes. *)
Theorem scroll_runs_every_listener n offset s :
  mounted s -> 0 <= offset ->
  offset + container_clientHeight (container s) <= actualContainerHeight s ->
  let host := Nat.iter n invoke (new_host s) in
  let after := scroll_event offset host in
  listeners after = listeners host
  /\ count_events is_renderList
       (events_since (list_view host) (list_view after)) = n.
Proof.
  intros (_ & _ & Hsync) Hlo Hhi host after.
  destruct (iter_invoke_spec n s)
    as (_ & (Ho & Hc & Hs & _ & _ & _ & Hv) & [Hlen Hall] & _).
  fold host in Ho, Hc, Hs, Hv, Hlen, Hall.
  split; [done |].
  set (u := set_scrollTop offset (list_view host)).
  destruct (run_scroll_callbacks
              (callbacks_for TheContainer Name_scroll (listeners host)) u Hall)
    as (evs & Htr & Hn).
  - subst u. cbn. by rewrite Hv, Hc.
  - done.
  - subst u. unfold actualContainerHeight in *. cbn. by rewrite Hc, Hs, Ho.
  - subst after. unfold scroll_event, dispatch. cbn [list_view listeners].
    fold u. rewrite (events_since_app (list_view host) _ evs) by exact Htr.
    by rewrite Hn.
Qed.

(** X17.  With [fixedSize], [invoke] registers no listener on the window:
    a resize of the window runs no code of the engine, however often
    [invoke] was called.  Without it, after one [invoke], a resize of the
    window is [onResize], and a scroll is [onScroll]. *)
Theorem window_resize_listener n viewport offset s :
  let host := Nat.iter n invoke (new_host s) in
  let once := invoke (new_host s) in
  (fixedSize (options s) = true ->
   list_view (resize_event viewport host)
   = set_clientHeight viewport (list_view host))
  /\ (fixedSize (options s) = false ->
      list_view (resize_event viewport once)
      = state_after (resize_signal viewport) (list_view once))
  /\ list_view (scroll_event offset once)
     = state_after (scroll_signal offset) (list_view once).
Proof.
  intros host once. split; [| split].
  - intros Hfixed.
    destruct (iter_invoke_spec n s) as (_ & _ & _ & Hres).
    rewrite Hfixed in Hres. fold host in Hres.
    unfold resize_event, dispatch. cbn [list_view listeners].
    by rewrite Hres.
  - intros Hfixed. subst once. unfold invoke.
    cbn [list_view add_bound new_host]. rewrite Hfixed. reflexivity.
  - subst once. unfold invoke. cbn [list_view add_bound new_host].
    by destruct (fixedSize (options s)).
Qed.

End Dispatch.

Lemma dispose_removes_no_listener_witness :
  registered (new_host Sample.mounted)
  /\ listeners (dispose_removeEventListeners (invoke (new_host Sample.mounted)))
     = listeners (invoke (new_host Sample.mounted)).
Proof.
  assert (registered (new_host Sample.mounted)) as Hreg by apply Forall_nil_2.
  split; [exact Hreg |].
  exact (proj2 (proj2 (dispose_removes_no_listener _ Hreg))).
Defined.

Lemma scroll_runs_every_listener_witness :
  mounted Sample.mounted
  /\ count_events is_renderList
       (events_since (list_view (Nat.iter 2 invoke (new_host Sample.mounted)))
          (list_view (scroll_event 240
             (Nat.iter 2 invoke (new_host Sample.mounted))))) = 2%nat.
Proof.
  assert (mounted Sample.mounted) as Hm
    by (apply (bool_decide_unpack _); by vm_compute).
  split; [exact Hm |].
  apply (proj2 (scroll_runs_every_listener 2 240 Sample.mounted Hm
                  ltac:(lia) ltac:(vm_compute; discriminate))).
Defined.

Lemma window_resize_listener_witness :
  list_view (resize_event 200 (invoke (new_host Sample.mounted)))
  = state_after (resize_signal 200) (list_view (invoke (new_host Sample.mounted))).
Proof.
  apply (proj1 (proj2 (window_resize_listener 0 200 0 Sample.mounted))).
  reflexivity.
Defined.

(** ** Loading more data behind the window *)

Section LazyLoad.

Context {T : Type} `{Truthy T}.
Implicit Types (s u w : ListView T) (i : Z) (c : NodeId)
  (d : gmap nat Element).

Lemma paint_slot_agree u w i c d :
  options u = options w -> container u = container w ->
  slot_bound u i = slot_bound w i ->
  paint_slot u i c d = paint_slot w i c d.
Proof.
  intros Ho Hc Hb. unfold paint_slot, slot_y, startIndex.
  by rewrite Ho, Hc, Hb.
Qed.

Lemma paint_slots_agree u w indices d :
  options u = options w -> container u = container w ->
  Forall (fun i => slot_bound u i = slot_bound w i) indices ->
  paint_slots u indices d = paint_slots w indices d.
Proof.
  intros Ho Hc Hall. revert d.
  induction Hall as [| i rest Hi _ IH]; intros d; [done |].
  simpl. rewrite IH. unfold slot_node. rewrite Hc.
  destruct (Js.index (children (container w)) (i + RUNWAY_COUNT)); [| done].
  by rewrite (paint_slot_agree u w).
Qed.

Lemma window_calls_agree u w indices :
  options u = options w -> container u = container w ->
  Forall (fun i => slot_bound u i = slot_bound w i) indices ->
  window_calls u indices = window_calls w indices.
Proof.
  intros Ho Hc Hall.
  induction Hall as [| i rest Hi _ IH]; [done |].
  simpl. rewrite IH. unfold slot_node, slot_calls, startIndex.
  by rewrite Ho, Hc, Hi.
Qed.

Lemma paint_slots_lookup_congr w indices d d' c :
  d !! c = d' !! c ->
  paint_slots w indices d !! c = paint_slots w indices d' !! c.
Proof.
  revert d d'. induction indices as [| i rest IH]; intros d d' Hd; [done |].
  simpl. apply IH. destruct (slot_node w i) as [c' |]; [| done].
  unfold paint_slot.
  destruct (slot_bound w i); rewrite !lookup_alter;
    repeat case_decide; subst; by rewrite ?Hd.
Qed.

(** X18.  Inserting at or behind the end of the window (as when more data
    is loaded at the end of a list that fills the window) does not
    change what is shown: the render pass of [insertData] calls the
    binder with the same nodes, items and indices as a render pass
    without the insertion, and leaves every node but the sentinel with
    the same position and tag. *)
Theorem insertData_behind_window items index s :
  0 < itemHeight (options s) -> 0 <= scrollTop (container s) ->
  let len := Z.of_nat (length (sourceList s)) in
  startIndex s + visibleCount s <= insert_position len index ->
  let inserted := state_after (insertData items index) s in
  let plain := state_after _renderList s in
  events_since s inserted = Call_stretchList :: events_since s plain
  /\ (forall c, c <> runway s -> dom inserted !! c = dom plain !! c).
Proof.
  intros Hh Htop len Hp inserted plain.
  set (p := insert_position len index) in *.
  assert (0 <= p <= len) as Hrange.
  { subst p len. unfold insert_position. destruct index as [i |]; [| lia].
    destruct (Z.ltb_spec i 0), (Z.ltb_spec (Z.of_nat (length (sourceList s))) i);
      simpl; lia. }
  set (w := set_sourceList (snd (splice (sourceList s) p 0 items)) s).
  set (u := stretched w).
  assert (inserted = rendered u (window_of u)) as Hins.
  { subst inserted. unfold state_after.
    by rewrite insertData_unfold, _renderList_exact. }
  assert (plain = rendered s (window_of s)) as Hplain.
  { subst plain. unfold state_after. by rewrite _renderList_exact. }
  assert (window_of u = window_of s) as Hwin by reflexivity.
  assert (Forall (fun i => slot_bound u i = slot_bound s i) (window_of s))
    as Hagree.
  { apply Forall_forall. intros i [Hi _]%elem_of_window_of.
    rewrite (slot_bound_source s) by done.
    rewrite (slot_bound_source u) by done.
    change (startIndex u) with (startIndex s).
    change (sourceList u) with (snd (splice (sourceList s) p 0 items)).
    rewrite splice_insert by done.
    pose proof (startIndex_nonneg s Hh Htop).
    rewrite lookup_app_l by (rewrite length_take; lia).
    by rewrite lookup_take_lt by lia. }
  rewrite Hins, Hplain, Hwin. split.
  - rewrite events_since_rendered.
    rewrite (events_since_app s _
               (Call_stretchList :: Call_renderList
                  :: window_calls u (window_of s)));
      [| unfold rendered; cbn [trace];
         change (trace u) with (trace s ++ [Call_stretchList]);
         by rewrite <- app_assoc].
    by rewrite (window_calls_agree u s).
  - intros c Hc. unfold rendered. cbn [dom].
    rewrite (paint_slots_agree u s) by done.
    apply paint_slots_lookup_congr.
    unfold u. rewrite dom_stretched. by rewrite decide_False.
Qed.

End LazyLoad.

Lemma insertData_behind_window_witness :
  events_since Sample.scrolled
    (state_after (insertData [7; 8] None) Sample.scrolled)
  = Call_stretchList
    :: events_since Sample.scrolled (state_after _renderList Sample.scrolled).
Proof.
  apply (proj1 (insertData_behind_window [7; 8] None Sample.scrolled
                  ltac:(vm_compute; reflexivity)
                  ltac:(vm_compute; discriminate)
                  ltac:(vm_compute; discriminate))).
Defined.
